(** * SimpleMemoryBank: the local memory store of [simple_memory_test.py]

    A shallow embedding of the class [SimpleMemoryBank]
    (src/test-memory-bank/simple_memory_test.py) and the properties of its
    four methods: [add_session_message], [extract_memories],
    [search_memories] and [get_memory_summary].

    Modelling conventions.
    - A Python [str] is a [string]; every [ascii] stands for one code point,
      so the model covers text whose code points are below 256.
    - A Python object produced by [json.loads] is a [json] value; a Python
      [dict] inside such a value is an association list in insertion order.
    - The two attributes of the bank are finite maps from user ids to lists.
    - Statements run in a state-and-exception monad [M]: a raised exception
      keeps the mutations made before it, as in Python.
    - What the class borrows from its runtime (the generation call, the
      [json] module, the clock, the formatting of objects) is the interface
      [Runtime]; the theorems hold for every runtime. [ref_loads] is a
      reference decoder used to run the methods on concrete responses. *)

From Stdlib Require Import ZArith Ascii String List Lia DecimalString.
From stdpp Require Import gmap strings list fin_maps.

Set Warnings "-register-all".

(* ===================================================================== *)
(** ** Python text *)
(* ===================================================================== *)

Module Text.

(** The double quote and the line feed, which a literal cannot hold. *)
Definition dq : string := String "034"%char EmptyString.
Definition nl : string := String "010"%char EmptyString.

(** [quoted s] is [s] between double quotes. *)
Definition quoted (s : string) : string := dq +:+ s +:+ dq.

(** [str.isspace] on one code point below 256: TAB..CR, FS..US, SPACE,
    NEL and NBSP. *)
Definition is_space (c : ascii) : bool :=
  let n := nat_of_ascii c in
  ((9 <=? n) && (n <=? 13)) || ((28 <=? n) && (n <=? 32))
  || (n =? 133) || (n =? 160).

(** [str.lstrip()] *)
Fixpoint lstrip (s : string) : string :=
  match s with
  | EmptyString => EmptyString
  | String c s' => if is_space c then lstrip s' else s
  end.

(** [str.rstrip()] *)
Fixpoint rstrip (s : string) : string :=
  match s with
  | EmptyString => EmptyString
  | String c s' =>
      match rstrip s' with
      | EmptyString => if is_space c then EmptyString else String c EmptyString
      | r => String c r
      end
  end.

(** [str.strip()] *)
Definition strip (s : string) : string := rstrip (lstrip s).

(** [s.startswith(p)] *)
Definition startswith (s p : string) : bool := String.prefix p s.

(** [s.replace(old, new)] for a non-empty [old]: the occurrences of [old]
    are found from the left and do not overlap. [skip] counts the
    characters of a match that are still to be dropped. *)
Fixpoint replace_from (old new : string) (skip : nat) (s : string) : string :=
  match s with
  | EmptyString => EmptyString
  | String c s' =>
      match skip with
      | S k => replace_from old new k s'
      | O =>
          if String.prefix old s
          then new +:+ replace_from old new (String.length old - 1) s'
          else String c (replace_from old new 0 s')
      end
  end.

(** With an empty [old] Python puts [new] before every character and at
    the end. *)
Fixpoint intersperse (new s : string) : string :=
  match s with
  | EmptyString => new
  | String c s' => new +:+ String c (intersperse new s')
  end.

Definition replace (s old new : string) : string :=
  match old with
  | EmptyString => intersperse new s
  | _ => replace_from old new 0 s
  end.

(** [sep.join(parts)] *)
Definition join (sep : string) (parts : list string) : string :=
  String.concat sep parts.

(** [str(n)] for a natural number, as [len(...)] is formatted. *)
Definition decimal (n : nat) : string :=
  NilEmpty.string_of_uint (Nat.to_uint n).

(** [c in s] for a character. *)
Fixpoint mem (c : ascii) (s : string) : bool :=
  match s with
  | EmptyString => false
  | String c' s' => Ascii.eqb c c' || mem c s'
  end.

(** [sub in s]: [sub] occurs somewhere in [s]. *)
Fixpoint occurs (sub s : string) : bool :=
  String.prefix sub s
  || match s with
     | EmptyString => false
     | String _ s' => occurs sub s'
     end.

(** Every character of [s] is white space. *)
Fixpoint all_space (s : string) : bool :=
  match s with
  | EmptyString => true
  | String c s' => is_space c && all_space s'
  end.

(** Writes a text with double quotes in it: every apostrophe of [s]
    becomes a double quote. *)
Fixpoint js (s : string) : string :=
  match s with
  | EmptyString => EmptyString
  | String c s' =>
      String (if Ascii.eqb c "'"%char then "034"%char else c) (js s')
  end.

End Text.

(* ===================================================================== *)
(** ** Python objects *)
(* ===================================================================== *)

(** The objects [json.loads] builds: [None], [bool], [int], [float] (kept as
    the literal it was read from), [str], [list] and [dict]. *)
Inductive json : Type :=
| JNull
| JBool (b : bool)
| JInt (n : Z)
| JFloat (literal : string)
| JStr (s : string)
| JArr (items : list json)
| JObj (fields : list (string * json)).

(** [d[k]] of a dict, [None] when the key is absent. *)
Fixpoint dict_get (k : string) (d : list (string * json)) : option json :=
  match d with
  | [] => None
  | (k', v) :: d' => if String.eqb k' k then Some v else dict_get k d'
  end.

(** [d[k] = v]: an existing key keeps its place, a new key goes last. *)
Fixpoint dict_set (k : string) (v : json) (d : list (string * json))
  : list (string * json) :=
  match d with
  | [] => [(k, v)]
  | (k', v') :: d' =>
      if String.eqb k' k then (k', v) :: d' else (k', v') :: dict_set k v d'
  end.

(** [isinstance(v, list)] and [isinstance(v, dict)]. *)
Definition is_list (v : json) : bool :=
  match v with JArr _ => true | _ => false end.

Definition is_dict (v : json) : bool :=
  match v with JObj _ => true | _ => false end.

(** [k in v] for a dict [v]. *)
Definition has_key (k : string) (v : json) : bool :=
  match v with
  | JObj d => match dict_get k d with Some _ => true | None => false end
  | _ => false
  end.

(** [v.get(k)] for a dict [v]. *)
Definition field (k : string) (v : json) : option json :=
  match v with
  | JObj d => dict_get k d
  | _ => None
  end.

(** The exceptions the methods meet; all derive from [Exception]. *)
Inductive exn : Type :=
| JSONDecodeError
| TypeError
| KeyError (key : string)
| OtherError (name : string).

Inductive result (A : Type) : Type :=
| Ret (a : A)
| Raise (e : exn).

Arguments Ret {A} a.
Arguments Raise {A} e.

(** The items a [for] loop over [v] visits: the elements of a list, the keys
    of a dict, the characters of a str; other objects are not iterable. *)
Definition py_iter (v : json) : result (list json) :=
  match v with
  | JArr l => Ret l
  | JObj d => Ret (map (fun kv => JStr (fst kv)) d)
  | JStr s => Ret (map (fun c => JStr (String c EmptyString)) (list_ascii_of_string s))
  | _ => Raise TypeError
  end.

(** [v[key] = x] with a str key: only a dict supports it. *)
Definition setitem (v : json) (key : string) (x : json) : result json :=
  match v with
  | JObj d => Ret (JObj (dict_set key x d))
  | _ => Raise TypeError
  end.

(** [v[key]] with a str key. *)
Definition getitem (v : json) (key : string) : result json :=
  match v with
  | JObj d =>
      match dict_get key d with
      | Some x => Ret x
      | None => Raise (KeyError key)
      end
  | _ => Raise TypeError
  end.

(* ===================================================================== *)
(** ** The bank, its surroundings and the statement monad *)
(* ===================================================================== *)

(** One entry of a session history, the dict built by
    [add_session_message]. *)
Record message : Type := Message {
  msg_session_id : string;
  msg_role : string;
  msg_content : string;
  msg_timestamp : string
}.

(** The two attributes set by [__init__]. *)
Record SimpleMemoryBank : Type := Bank {
  memories : gmap string (list json);
  sessions : gmap string (list message)
}.

(** The bank together with what the methods touch outside it: the number of
    clock readings taken, the prompts sent to the generation call (oldest
    first) and the error lines printed (prefix and exception, oldest
    first). *)
Record world : Type := World {
  bank : SimpleMemoryBank;
  clock : nat;
  prompts : list string;
  stdout : list (string * exn)
}.

(** What the class takes from its runtime.
    - [generate_content n p]: the text of the response to prompt [p] on the
      [n]-th generation call, i.e. [model.generate_content(p).text], or the
      exception either step raises;
    - [json_loads], [json_dumps]: [json.loads] and
      [json.dumps(_, indent=2)];
    - [now_isoformat n]: the [n]-th reading of
      [datetime.now().isoformat()];
    - [py_format]: the text an f-string puts for an object that is not a
      str. *)
Class Runtime : Type := {
  generate_content : nat -> string -> result string;
  json_loads : string -> result json;
  json_dumps : json -> string;
  now_isoformat : nat -> string;
  py_format : json -> string
}.

(** A statement: it reads and changes the world and returns or raises. *)
Definition M (A : Type) : Type := world -> result A * world.

Definition ret {A : Type} (a : A) : M A := fun w => (Ret a, w).

Definition raise {A : Type} (e : exn) : M A := fun w => (Raise e, w).

Definition bind {A B : Type} (c : M A) (k : A -> M B) : M B :=
  fun w =>
    match c w with
    | (Ret a, w') => k a w'
    | (Raise e, w') => (Raise e, w')
    end.

(** [try: body except Exception as e: handler(e)] *)
Definition try_except {A : Type} (body : M A) (handler : exn -> M A) : M A :=
  fun w =>
    match body w with
    | (Ret a, w') => (Ret a, w')
    | (Raise e, w') => handler e w'
    end.

(** A pure step that may raise. *)
Definition lift {A : Type} (r : result A) : M A := fun w => (r, w).

Notation "'do' x <- c ; k" := (bind c (fun x => k))
  (at level 10, x name, c at level 100, k at level 200).
Notation "c ;; k" := (bind c (fun _ => k))
  (at level 100, k at level 200, right associativity).

Definition set_memories (m : gmap string (list json)) (w : world) : world :=
  World (Bank m (sessions (bank w))) (clock w) (prompts w) (stdout w).

Definition set_sessions (s : gmap string (list message)) (w : world) : world :=
  World (Bank (memories (bank w)) s) (clock w) (prompts w) (stdout w).

(** [user_id in self.sessions] and [user_id in self.memories] *)
Definition in_sessions (user_id : string) : M bool :=
  fun w =>
    (Ret (match sessions (bank w) !! user_id with
          | Some _ => true
          | None => false
          end), w).

Definition in_memories (user_id : string) : M bool :=
  fun w =>
    (Ret (match memories (bank w) !! user_id with
          | Some _ => true
          | None => false
          end), w).

(** [self.sessions[user_id]] and [self.memories[user_id]] *)
Definition get_sessions (user_id : string) : M (list message) :=
  fun w =>
    match sessions (bank w) !! user_id with
    | Some l => (Ret l, w)
    | None => (Raise (KeyError user_id), w)
    end.

Definition get_memories (user_id : string) : M (list json) :=
  fun w =>
    match memories (bank w) !! user_id with
    | Some l => (Ret l, w)
    | None => (Raise (KeyError user_id), w)
    end.

(** [self.sessions[user_id] = l] and [self.memories[user_id] = l] *)
Definition put_sessions (user_id : string) (l : list message) : M unit :=
  fun w => (Ret tt, set_sessions (<[user_id := l]> (sessions (bank w))) w).

Definition put_memories (user_id : string) (l : list json) : M unit :=
  fun w => (Ret tt, set_memories (<[user_id := l]> (memories (bank w))) w).

(** [self.sessions[user_id].append(m)] and
    [self.memories[user_id].append(m)] *)
Definition append_session (user_id : string) (m : message) : M unit :=
  do l <- get_sessions user_id; put_sessions user_id (l ++ [m]).

Definition append_memory (user_id : string) (m : json) : M unit :=
  do l <- get_memories user_id; put_memories user_id (l ++ [m]).

Section Methods.

Context {R : Runtime}.

(** [datetime.now().isoformat()] *)
Definition now : M string :=
  fun w =>
    (Ret (now_isoformat (clock w)),
     World (bank w) (S (clock w)) (prompts w) (stdout w)).

(** [model.generate_content(prompt).text] *)
Definition generate (prompt : string) : M string :=
  fun w =>
    (generate_content (length (prompts w)) prompt,
     World (bank w) (clock w) (prompts w ++ [prompt]) (stdout w)).

(** [print] of the prefix followed by [str(e)], lines 111 and 147. *)
Definition print_error (prefix : string) (e : exn) : M unit :=
  fun w =>
    (Ret tt, World (bank w) (clock w) (prompts w) (stdout w ++ [(prefix, e)])).

(** What an f-string puts for [v]. *)
Definition fmt (v : json) : string :=
  match v with
  | JStr s => s
  | _ => py_format v
  end.

(** [add_session_message], lines 38-48. *)
Definition add_session_message (user_id session_id role content : string)
  : M unit :=
  do known <- in_sessions user_id;
  (if known then ret tt else put_sessions user_id []);;
  do history <- get_sessions user_id;
  do timestamp <- now;
  put_sessions user_id
    (history ++ [Message session_id role content timestamp]).

(** The f-string of lines 71-87, with its line breaks and indentation. *)
Definition extraction_prompt (conversation : string) : string :=
  Text.join Text.nl
    [ "";
      "        Analyze this conversation and extract key facts, preferences, and important information about the user.";
      "        Focus on:";
      "        - Personal preferences";
      "        - Important facts about the user";
      "        - Context that would be useful to remember in future conversations";
      "        ";
      "        Conversation:";
      "        " +:+ conversation;
      "        ";
      "        Return the extracted information as a JSON list of memory objects, each with:";
      "        - " +:+ Text.quoted "fact" +:+ ": the specific fact or preference";
      "        - " +:+ Text.quoted "context" +:+ ": brief context about when/how this was mentioned";
      "        - " +:+ Text.quoted "importance" +:+ ": score 1-10 of how important this is to remember";
      "        ";
      "        Return only valid JSON, no other text.";
      "        " ].

(** The f-string of lines 124-134. *)
Definition search_prompt (query : string) (user_memories : list json)
  : string :=
  Text.join Text.nl
    [ "";
      "        Given this query: " +:+ Text.quoted query;
      "        ";
      "        Find the most relevant memories from this list:";
      "        " +:+ json_dumps (JArr user_memories);
      "        ";
      "        Return a JSON list of the most relevant memories (max 5), ordered by relevance.";
      "        Include the original memory objects with an additional " +:+ Text.quoted "relevance_score" +:+ " field (1-10).";
      "        ";
      "        Return only valid JSON, no other text.";
      "        " ].

(** Lines 91-95, and the same statements at lines 138-141: the response is
    stripped and, when it then starts with the marker, both markers are
    deleted wherever they occur and the text is stripped again. *)
Definition unfence (text : string) : string :=
  let memories_text := Text.strip text in
  if Text.startswith memories_text "```json"
  then Text.strip
         (Text.replace (Text.replace memories_text "```json" "") "```" "")
  else memories_text.

(** One turn of the loop of lines 103-106 on [memory]; it returns the
    stamped object, which is the one appended. *)
Definition store_memory (user_id session_id : string) (memory : json)
  : M json :=
  do memory1 <- lift (setitem memory "session_id" (JStr session_id));
  do extracted_at <- now;
  do memory2 <- lift (setitem memory1 "extracted_at" (JStr extracted_at));
  append_memory user_id memory2;;
  ret memory2.

(** The loop of lines 103-106 over the items it visits; the result lists the
    items as the loop leaves them. *)
Fixpoint store_memories (user_id session_id : string) (items : list json)
  : M (list json) :=
  match items with
  | [] => ret []
  | memory :: rest =>
      do stamped <- store_memory user_id session_id memory;
      do others <- store_memories user_id session_id rest;
      ret (stamped :: others)
  end.

(** The object [extracted_memories] after the loop: the loop changes the
    elements of a list in place; any other object it can finish on has no
    element and is as parsed. *)
Definition after_loop (extracted_memories : json) (stamped : list json)
  : json :=
  match extracted_memories with
  | JArr _ => JArr stamped
  | other => other
  end.

(** The body of the [try] of lines 89-108. *)
Definition extract_body (user_id session_id prompt : string) : M json :=
  do text <- generate prompt;
  do extracted_memories <- lift (json_loads (unfence text));
  do known <- in_memories user_id;
  (if known then ret tt else put_memories user_id []);;
  do items <- lift (py_iter extracted_memories);
  do stamped <- store_memories user_id session_id items;
  ret (after_loop extracted_memories stamped).

(** The messages of one session, lines 56-59. *)
Definition session_messages (session_id : string) (history : list message)
  : list message :=
  filter (fun msg => msg_session_id msg = session_id) history.

(** The transcript of lines 65-68. *)
Definition conversation (msgs : list message) : string :=
  Text.join Text.nl
    (map (fun msg => msg_role msg +:+ ": " +:+ msg_content msg) msgs).

(** [extract_memories], lines 50-112. *)
Definition extract_memories (user_id session_id : string) : M json :=
  do known <- in_sessions user_id;
  if negb known then ret (JArr []) else
  do history <- get_sessions user_id;
  match session_messages session_id history with
  | [] => ret (JArr [])
  | msgs =>
      try_except
        (extract_body user_id session_id
           (extraction_prompt (conversation msgs)))
        (fun e => print_error "Error extracting memories: " e;; ret (JArr []))
  end.

(** The body of the [try] of lines 136-144. *)
Definition search_body (prompt : string) : M json :=
  do text <- generate prompt;
  lift (json_loads (unfence text)).

(** [search_memories], lines 114-148. *)
Definition search_memories (user_id query : string) : M json :=
  do known <- in_memories user_id;
  if negb known then ret (JArr []) else
  do user_memories <- get_memories user_id;
  match user_memories with
  | [] => ret (JArr [])
  | _ =>
      try_except
        (search_body (search_prompt query user_memories))
        (fun e =>
           print_error "Error searching memories: " e;;
           ret (JArr (take 3 user_memories)))
  end.

(** The list comprehension of line 159. *)
Fixpoint memory_facts (l : list json) : result (list json) :=
  match l with
  | [] => Ret []
  | memory :: rest =>
      match getitem memory "fact" with
      | Raise e => Raise e
      | Ret fact =>
          match memory_facts rest with
          | Raise e => Raise e
          | Ret facts => Ret (fact :: facts)
          end
      end
  end.

Definition no_memories : string := "No memories found for this user.".

(** [get_memory_summary], lines 150-160. *)
Definition get_memory_summary (user_id : string) : M string :=
  do known <- in_memories user_id;
  if negb known then ret no_memories else
  do mems <- get_memories user_id;
  match mems with
  | [] => ret no_memories
  | _ =>
      do facts <- lift (memory_facts mems);
      ret ("User has " +:+ Text.decimal (length mems)
           +:+ " stored memories:" +:+ Text.nl
           +:+ Text.join Text.nl (map (fun fact => "- " +:+ fmt fact) facts))
  end.

End Methods.

(** The bank [SimpleMemoryBank()] builds, in a world where nothing has
    happened yet. *)
Definition new_bank : SimpleMemoryBank := Bank ∅ ∅.

Definition new_world : world := World new_bank 0 [] [].

(** The fact collection of a user, [self.memories.get(user_id, [])], and the
    turn list likewise. *)
Definition facts_of (w : world) (user_id : string) : list json :=
  default [] (memories (bank w) !! user_id).

Definition turns_of (w : world) (user_id : string) : list message :=
  default [] (sessions (bank w) !! user_id).

(** The worlds a program reaches from a new bank by calling the four
    methods. *)
Inductive reachable {R : Runtime} : world -> Prop :=
| reach_new : reachable new_world
| reach_add w user_id session_id role content :
    reachable w ->
    reachable (snd (add_session_message user_id session_id role content w))
| reach_extract w user_id session_id :
    reachable w ->
    reachable (snd (extract_memories user_id session_id w))
| reach_search w user_id query :
    reachable w ->
    reachable (snd (search_memories user_id query w))
| reach_summary w user_id :
    reachable w ->
    reachable (snd (get_memory_summary user_id w)).

(* ===================================================================== *)
(** ** A reference decoder *)
(* ===================================================================== *)

(** [ref_loads] follows the decoder of Python's [json] module on text whose
    code points are below 256: white space is SPACE, TAB, LF and CR; strings
    are strict (no raw control character); a number without fraction and
    exponent is an [int], any other a [float]; [NaN], [Infinity] and
    [-Infinity] are accepted; a repeated key keeps its first place and its
    last value. An escape that denotes a code point above 255 and an [int]
    of more than 4300 digits are refused with [JSONDecodeError] (Python
    raises [ValueError] for such an int), and the depth of nesting has no
    limit (Python raises [RecursionError] near the limit of the
    interpreter). *)
Module Decoder.

Definition is_ws (c : ascii) : bool :=
  Text.mem c (String " " (String "009" (String "010" (String "013" "")))).

Fixpoint skip_ws (s : string) : string :=
  match s with
  | String c s' => if is_ws c then skip_ws s' else s
  | EmptyString => EmptyString
  end.

Definition is_digit (c : ascii) : bool :=
  let n := nat_of_ascii c in (48 <=? n) && (n <=? 57).

Definition hex_digit (c : ascii) : option nat :=
  let n := nat_of_ascii c in
  if (48 <=? n) && (n <=? 57) then Some (n - 48)
  else if (65 <=? n) && (n <=? 70) then Some (n - 55)
  else if (97 <=? n) && (n <=? 102) then Some (n - 87)
  else None.

(** The character an escape letter stands for. *)
Definition unescape (c : ascii) : option ascii :=
  if Ascii.eqb c "034" then Some "034"%char
  else if Ascii.eqb c "\" then Some "\"%char
  else if Ascii.eqb c "/" then Some "/"%char
  else if Ascii.eqb c "b" then Some "008"%char
  else if Ascii.eqb c "f" then Some "012"%char
  else if Ascii.eqb c "n" then Some "010"%char
  else if Ascii.eqb c "r" then Some "013"%char
  else if Ascii.eqb c "t" then Some "009"%char
  else None.

Definition cons_char (c : ascii) (r : option (string * string))
  : option (string * string) :=
  match r with
  | Some (str, rest) => Some (String c str, rest)
  | None => None
  end.

(** The string whose opening quote has been read: its content and the text
    after its closing quote. *)
Fixpoint scanstring (s : string) : option (string * string) :=
  match s with
  | EmptyString => None
  | String c s1 =>
      if Ascii.eqb c "034" then Some (EmptyString, s1)
      else if Ascii.eqb c "\" then
        match s1 with
        | EmptyString => None
        | String e s2 =>
            if Ascii.eqb e "u" then
              match s2 with
              | String h1 (String h2 (String h3 (String h4 s6))) =>
                  match hex_digit h1, hex_digit h2, hex_digit h3, hex_digit h4 with
                  | Some 0, Some 0, Some d3, Some d4 =>
                      cons_char (ascii_of_nat (16 * d3 + d4)) (scanstring s6)
                  | _, _, _, _ => None
                  end
              | _ => None
              end
            else
              match unescape e with
              | Some c' => cons_char c' (scanstring s2)
              | None => None
              end
        end
      else if nat_of_ascii c <? 32 then None
      else cons_char c (scanstring s1)
  end.

(** The longest prefix of digits, and the rest. *)
Fixpoint digits (s : string) : string * string :=
  match s with
  | String c s' =>
      if is_digit c then let (d, r) := digits s' in (String c d, r)
      else (EmptyString, s)
  | EmptyString => (EmptyString, EmptyString)
  end.

(** [int(d)] for a text of digits. *)
Definition int_of_digits (d : string) : Z :=
  fold_left (fun acc c => 10 * acc + Z.of_nat (nat_of_ascii c - 48))%Z
    (list_ascii_of_string d) 0%Z.

(** The integer part of a number: [0] or a digit from 1 to 9 followed by
    digits. *)
Definition int_part (s : string) : option (string * string) :=
  match s with
  | String c s' =>
      if Ascii.eqb c "0" then Some ("0", s')
      else if is_digit c then let (d, r) := digits s' in Some (String c d, r)
      else None
  | EmptyString => None
  end.

(** The optional fraction: a dot followed by at least one digit. *)
Definition frac_part (s : string) : string * string :=
  match s with
  | String "." s' =>
      match digits s' with
      | (EmptyString, _) => (EmptyString, s)
      | (d, r) => (String "." d, r)
      end
  | _ => (EmptyString, s)
  end.

(** The optional exponent: [e] or [E], an optional sign, at least one
    digit. *)
Definition exp_part (s : string) : string * string :=
  match s with
  | String e s' =>
      if Ascii.eqb e "e" || Ascii.eqb e "E" then
        let (sign, s2) :=
          match s' with
          | String g s2 =>
              if Ascii.eqb g "+" || Ascii.eqb g "-"
              then (String g EmptyString, s2) else (EmptyString, s')
          | EmptyString => (EmptyString, s')
          end in
        match digits s2 with
        | (EmptyString, _) => (EmptyString, s)
        | (d, r) => (String e (sign +:+ d), r)
        end
      else (EmptyString, s)
  | EmptyString => (EmptyString, s)
  end.

Definition max_str_digits : nat := 4300.

(** A number at the head of [s]. *)
Definition scan_number (s : string) : option (json * string) :=
  let (neg, s0) :=
    match s with
    | String "-" s' => (true, s')
    | _ => (false, s)
    end in
  match int_part s0 with
  | None => None
  | Some (i, s1) =>
      let (f, s2) := frac_part s1 in
      let (e, s3) := exp_part s2 in
      match f, e with
      | EmptyString, EmptyString =>
          if max_str_digits <? String.length i then None
          else Some (JInt (if neg then - int_of_digits i else int_of_digits i)%Z, s3)
      | _, _ => Some (JFloat ((if neg then "-" else "") +:+ i +:+ f +:+ e), s3)
      end
  end.

(** [s] without its first [n] characters. *)
Fixpoint drop_chars (n : nat) (s : string) : string :=
  match n, s with
  | S k, String _ s' => drop_chars k s'
  | _, _ => s
  end.

Definition keyword (k : string) (v : json) (s : string)
  : option (json * string) :=
  if String.prefix k s then Some (v, drop_chars (String.length k) s) else None.

Definition or_else {A : Type} (a b : option A) : option A :=
  match a with
  | Some _ => a
  | None => b
  end.

(** [dict(pairs)] *)
Definition dict_of_pairs (pairs : list (string * json)) : list (string * json) :=
  fold_left (fun d kv => dict_set (fst kv) (snd kv) d) pairs [].

(** [scan_once] reads one value at the head of [s]; [array_items] reads the
    elements of a list up to its closing bracket, [object_pairs] the pairs
    of a dict from the opening quote of a key up to the closing brace. *)
Fixpoint scan_once (fuel : nat) (s : string) {struct fuel}
  : option (json * string) :=
  match fuel with
  | O => None
  | S fuel' =>
      match s with
      | EmptyString => None
      | String c s' =>
          if Ascii.eqb c "034" then
            match scanstring s' with
            | Some (str, rest) => Some (JStr str, rest)
            | None => None
            end
          else if Ascii.eqb c "{" then
            match skip_ws s' with
            | String "}" rest => Some (JObj [], rest)
            | String "034" rest =>
                match object_pairs fuel' rest with
                | Some (pairs, rest') => Some (JObj (dict_of_pairs pairs), rest')
                | None => None
                end
            | _ => None
            end
          else if Ascii.eqb c "[" then
            match skip_ws s' with
            | String "]" rest => Some (JArr [], rest)
            | s1 =>
                match array_items fuel' s1 with
                | Some (values, rest) => Some (JArr values, rest)
                | None => None
                end
            end
          else
            or_else (keyword "null" JNull s)
            (or_else (keyword "true" (JBool true) s)
            (or_else (keyword "false" (JBool false) s)
            (or_else (scan_number s)
            (or_else (keyword "NaN" (JFloat "NaN") s)
            (or_else (keyword "Infinity" (JFloat "Infinity") s)
                     (keyword "-Infinity" (JFloat "-Infinity") s))))))
      end
  end
with array_items (fuel : nat) (s : string) {struct fuel}
  : option (list json * string) :=
  match fuel with
  | O => None
  | S fuel' =>
      match scan_once fuel' s with
      | None => None
      | Some (value, s1) =>
          match skip_ws s1 with
          | String "]" rest => Some ([value], rest)
          | String "," s2 =>
              match array_items fuel' (skip_ws s2) with
              | Some (values, rest) => Some (value :: values, rest)
              | None => None
              end
          | _ => None
          end
      end
  end
with object_pairs (fuel : nat) (s : string) {struct fuel}
  : option (list (string * json) * string) :=
  match fuel with
  | O => None
  | S fuel' =>
      match scanstring s with
      | None => None
      | Some (key, s1) =>
          match skip_ws s1 with
          | String ":" s2 =>
              match scan_once fuel' (skip_ws s2) with
              | None => None
              | Some (value, s3) =>
                  match skip_ws s3 with
                  | String "}" rest => Some ([(key, value)], rest)
                  | String "," s4 =>
                      match skip_ws s4 with
                      | String "034" s5 =>
                          match object_pairs fuel' s5 with
                          | Some (pairs, rest) => Some ((key, value) :: pairs, rest)
                          | None => None
                          end
                      | _ => None
                      end
                  | _ => None
                  end
              end
          | _ => None
          end
      end
  end.

(** [json.loads(s)] *)
Definition ref_loads (s : string) : result json :=
  match scan_once (2 * String.length s + 2) (skip_ws s) with
  | Some (v, rest) =>
      match skip_ws rest with
      | EmptyString => Ret v
      | _ => Raise JSONDecodeError
      end
  | None => Raise JSONDecodeError
  end.

End Decoder.

(* ===================================================================== *)
(** ** A reference runtime *)
(* ===================================================================== *)

(** [ref_dumps] is [json.dumps(_, indent=2)] and [ref_repr] is [repr], for
    the objects of type [json]. A float is written as the literal it was
    read from, and [ref_repr] quotes a str as Python does when it holds no
    quote, backslash or unprintable character. *)
Module Encoder.

Definition hex_char (n : nat) : ascii :=
  if n <? 10 then ascii_of_nat (48 + n) else ascii_of_nat (87 + n).

(** One character of a string, as [ensure_ascii] writes it. *)
Definition encode_char (c : ascii) : string :=
  let n := nat_of_ascii c in
  if Ascii.eqb c "034" then "\" +:+ Text.dq
  else if Ascii.eqb c "\" then "\\"
  else if n =? 10 then "\n"
  else if n =? 13 then "\r"
  else if n =? 9 then "\t"
  else if n =? 12 then "\f"
  else if n =? 8 then "\b"
  else if (32 <=? n) && (n <=? 126) then String c EmptyString
  else "\u00" +:+ String (hex_char (n / 16)) (String (hex_char (n mod 16)) EmptyString).

Fixpoint encode_chars (s : string) : string :=
  match s with
  | EmptyString => EmptyString
  | String c s' => encode_char c +:+ encode_chars s'
  end.

Definition encode_string (s : string) : string :=
  Text.quoted (encode_chars s).

Definition int_text (n : Z) : string := NilEmpty.string_of_int (Z.to_int n).

Fixpoint spaces (n : nat) : string :=
  match n with
  | O => EmptyString
  | S k => String " " (spaces k)
  end.

Definition newline_indent (level : nat) : string :=
  Text.nl +:+ spaces (2 * level).

Fixpoint dumps_at (level : nat) (v : json) : string :=
  match v with
  | JNull => "null"
  | JBool true => "true"
  | JBool false => "false"
  | JInt n => int_text n
  | JFloat literal => literal
  | JStr s => encode_string s
  | JArr [] => "[]"
  | JArr l =>
      "[" +:+ newline_indent (S level)
      +:+ Text.join ("," +:+ newline_indent (S level))
            (map (fun x => dumps_at (S level) x) l)
      +:+ newline_indent level +:+ "]"
  | JObj [] => "{}"
  | JObj d =>
      "{" +:+ newline_indent (S level)
      +:+ Text.join ("," +:+ newline_indent (S level))
            (map (fun kv =>
                    match kv with
                    | (k, x) => encode_string k +:+ ": " +:+ dumps_at (S level) x
                    end) d)
      +:+ newline_indent level +:+ "}"
  end.

Definition ref_dumps (v : json) : string := dumps_at 0 v.

Fixpoint ref_repr (v : json) : string :=
  match v with
  | JNull => "None"
  | JBool true => "True"
  | JBool false => "False"
  | JInt n => int_text n
  | JFloat literal => literal
  | JStr s => "'" +:+ s +:+ "'"
  | JArr l => "[" +:+ Text.join ", " (map (fun x => ref_repr x) l) +:+ "]"
  | JObj d =>
      "{" +:+ Text.join ", "
                (map (fun kv =>
                        match kv with
                        | (k, x) => "'" +:+ k +:+ "': " +:+ ref_repr x
                        end) d)
      +:+ "}"
  end.

End Encoder.

(** The [n]-th reading of the reference clock. *)
Definition ref_now (n : nat) : string :=
  "2025-01-01T00:00:00."
  +:+ (let d := Text.decimal (S n) in
       String.concat "" (repeat "0" (6 - String.length d)) +:+ d).

(** The reference runtime whose generation call answers [respond]. *)
Definition ref_runtime (respond : nat -> string -> result string) : Runtime :=
  {| generate_content := respond;
     json_loads := Decoder.ref_loads;
     json_dumps := Encoder.ref_dumps;
     now_isoformat := ref_now;
     py_format := Encoder.ref_repr |}.

(** A generation call that answers [text] to every prompt, and one that
    always raises. *)
Definition answers (text : string) : nat -> string -> result string :=
  fun _ _ => Ret text.

Definition fails (e : exn) : nat -> string -> result string :=
  fun _ _ => Raise e.

(** [R] with its generation call replaced by [respond]. *)
Definition with_response (R : Runtime) (respond : nat -> string -> result string)
  : Runtime :=
  {| generate_content := respond;
     json_loads := @json_loads R;
     json_dumps := @json_dumps R;
     now_isoformat := @now_isoformat R;
     py_format := @py_format R |}.

(** The outcome of the generation call on [prompt] followed by the parsing
    of its text (lines 90-97 and 137-143): the parsed object, or the
    exception raised by the call or by the decoder. *)
Definition parsed_response {R : Runtime} (n : nat) (prompt : string)
  : result json :=
  match generate_content n prompt with
  | Ret text => json_loads (unfence text)
  | Raise e => Raise e
  end.

(** The prompts of the two methods in world [w]. *)
Definition extract_prompt_of (w : world) (user_id session_id : string)
  : string :=
  extraction_prompt
    (conversation (session_messages session_id (turns_of w user_id))).

Definition search_prompt_of {R : Runtime} (w : world) (user_id query : string)
  : string :=
  search_prompt query (facts_of w user_id).

(** A fenced response: the marker, the content, the closing marker, with
    white space around. *)
Definition fenced (pre body post : string) : string :=
  pre +:+ "```json" +:+ body +:+ "```" +:+ post.

(** [stamp_of session_id item stamped]: [stamped] is the dict [item] after
    the two assignments of lines 104-105. *)
Definition stamp_of (session_id : string) (item stamped : json) : Prop :=
  exists d extracted_at,
    item = JObj d /\
    stamped = JObj (dict_set "extracted_at" (JStr extracted_at)
                      (dict_set "session_id" (JStr session_id) d)).

(** A stored fact attributed to [session_id]. *)
Definition attributed_to (session_id : string) (fact : json) : Prop :=
  is_dict fact = true /\ field "session_id" fact = Some (JStr session_id).

(** The world after the generation call on [prompt]. *)
Definition prompted (prompt : string) (w : world) : world :=
  World (bank w) (clock w) (prompts w ++ [prompt]) (stdout w).

(** The error line of the two handlers. *)
Definition logged (prefix : string) (e : exn) (w : world) : world :=
  World (bank w) (clock w) (prompts w) (stdout w ++ [(prefix, e)]).

(* ===================================================================== *)
(** ** Sample runs *)
(* ===================================================================== *)

(** The reference runtime whose generation call answers [text], written with
    apostrophes for double quotes. *)
Definition rt (text : string) : Runtime := ref_runtime (answers (Text.js text)).

(** A new bank after one turn of user [u1] in session [s1]. *)
Definition one_turn : world :=
  snd (add_session_message (R := rt "") "u1" "s1" "user"
         "I love pizza and window seats" new_world).

(** The same bank after an extraction that stored one fact. *)
Definition one_fact : world :=
  snd (extract_memories
         (R := rt "[{'fact': 'loves pizza', 'context': 'said so', 'importance': 7}]")
         "u1" "s1" one_turn).

(** The fact stored in [one_fact]. *)
Definition pizza_fact : json :=
  JObj [("fact", JStr "loves pizza"); ("context", JStr "said so");
        ("importance", JInt 7); ("session_id", JStr "s1");
        ("extracted_at", JStr "2025-01-01T00:00:00.000002")].

(* ===================================================================== *)
(** ** Calls, and the loop in closed form *)
(* ===================================================================== *)

(** A call of one of the four methods. *)
Inductive call : Type :=
| AddSessionMessage (user_id session_id role content : string)
| ExtractMemories (user_id session_id : string)
| SearchMemories (user_id query : string)
| GetMemorySummary (user_id : string).

(** The world a call leaves, whether it returns or raises. *)
Definition after_call {R : Runtime} (c : call) (w : world) : world :=
  match c with
  | AddSessionMessage user_id session_id role content =>
      snd (add_session_message user_id session_id role content w)
  | ExtractMemories user_id session_id =>
      snd (extract_memories user_id session_id w)
  | SearchMemories user_id query => snd (search_memories user_id query w)
  | GetMemorySummary user_id => snd (get_memory_summary user_id w)
  end.

(** The user a call is about. *)
Definition call_user (c : call) : string :=
  match c with
  | AddSessionMessage user_id _ _ _ => user_id
  | ExtractMemories user_id _ => user_id
  | SearchMemories user_id _ => user_id
  | GetMemorySummary user_id => user_id
  end.

(** The dict [d] after the two assignments of lines 104-105, the clock
    reading being [extracted_at]. *)
Definition stamped_dict (session_id extracted_at : string)
    (d : list (string * json)) : json :=
  JObj (dict_set "extracted_at" (JStr extracted_at)
          (dict_set "session_id" (JStr session_id) d)).

(** The objects the loop of lines 103-106 appends before it finishes or
    meets an item that is not a dict; [tick] counts the clock readings taken
    before the first item. *)
Fixpoint stamp_prefix {R : Runtime} (session_id : string) (tick : nat)
    (items : list json) : list json :=
  match items with
  | JObj d :: rest =>
      stamped_dict session_id (now_isoformat tick) d
      :: stamp_prefix session_id (S tick) rest
  | _ => []
  end.

(** A stored fact of [user_id] in world [w] is a dict with a str under
    [extracted_at] and, under [session_id], the id of a session in which the
    user has a turn. *)
Definition well_attributed (w : world) (user_id : string) (fact : json)
  : Prop :=
  exists session_id extracted_at msg,
    is_dict fact = true /\
    field "session_id" fact = Some (JStr session_id) /\
    field "extracted_at" fact = Some (JStr extracted_at) /\
    msg ∈ turns_of w user_id /\
    msg_session_id msg = session_id.

(** The invariant of the bank: a user with a fact list has a turn list, no
    turn list is empty, and every fact is well attributed. *)
Definition bank_invariant (w : world) : Prop :=
  (forall user_id,
     is_Some (memories (bank w) !! user_id) ->
     is_Some (sessions (bank w) !! user_id)) /\
  (forall user_id, sessions (bank w) !! user_id <> Some []) /\
  (forall user_id, Forall (well_attributed w user_id) (facts_of w user_id)).

(* ===================================================================== *)
(** ** The context queries of the load hook *)
(* ===================================================================== *)

(** [get_context_from_tool] of hooks/load_context.py, lines 63-104. Its
    arguments come from the JSON read by the hook, so both are [json]
    values; the working directory is an argument, and so is the truth value
    of a float, which depends on its numeric value. Paths are POSIX
    paths. *)
Module Hook.

(** [s.split()]: the maximal runs of characters that are not white space;
    [word] holds the run being read. *)
Fixpoint split_from (word s : string) : list string :=
  match s with
  | EmptyString =>
      match word with
      | EmptyString => []
      | _ => [word]
      end
  | String c s' =>
      if Text.is_space c
      then match word with
           | EmptyString => split_from EmptyString s'
           | _ => word :: split_from EmptyString s'
           end
      else split_from (word +:+ String c EmptyString) s'
  end.

Definition split (s : string) : list string := split_from EmptyString s.

(** [posixpath.basename(p)]: what follows the last slash. *)
Fixpoint basename (p : string) : string :=
  match p with
  | EmptyString => EmptyString
  | String _ p' => if Text.mem "/" p then basename p' else p
  end.

(** [s.endswith(suffix)] *)
Fixpoint endswith (s suffix : string) : bool :=
  String.eqb s suffix
  || match s with
     | EmptyString => false
     | String _ s' => endswith s' suffix
     end.

Definition AttributeError : exn := OtherError "AttributeError".
Definition IndexError : exn := OtherError "IndexError".

(** [tool_name == name] for a str [name]. *)
Definition named (tool_name : json) (name : string) : bool :=
  match tool_name with
  | JStr s => String.eqb s name
  | _ => false
  end.

(** [tool_input.get(key, '')]: only a dict has the method. *)
Definition get_or_empty (tool_input : json) (key : string) : result json :=
  match tool_input with
  | JObj d =>
      match dict_get key d with
      | Some v => Ret v
      | None => Ret (JStr EmptyString)
      end
  | _ => Raise AttributeError
  end.

Section Contexts.

Variable float_nonzero : string -> bool.

(** [bool(v)] *)
Definition truthy (v : json) : bool :=
  match v with
  | JNull => false
  | JBool b => b
  | JInt n => negb (n =? 0)%Z
  | JFloat literal => float_nonzero literal
  | JStr EmptyString => false
  | JStr _ => true
  | JArr [] => false
  | JArr _ => true
  | JObj [] => false
  | JObj _ => true
  end.

(** Lines 72-78: the contexts named after the language of the file. *)
Definition language_contexts (file_path : string) : list string :=
  if endswith file_path ".py" then ["python development"]
  else if endswith file_path ".js" || endswith file_path ".ts"
       then ["javascript typescript development"]
  else if endswith file_path ".md" then ["documentation writing"]
  else [].

(** The two contexts of a file tool, lines 69-70, 83-84 and 95-96; a value
    that is true but not a str makes [os.path.basename] raise. *)
Definition file_contexts (doing about : string) (file_path : json)
    (more : string -> list string) : result (list string) :=
  match file_path with
  | JStr p =>
      if truthy file_path
      then Ret ([doing +:+ basename p; about +:+ p] ++ more p)
      else Ret []
  | other => if truthy other then Raise TypeError else Ret []
  end.

(** The two contexts of [Bash], lines 89-90; a value that is true but not a
    str has no [split], and a str of white space has no first word. *)
Definition command_contexts (command : json) : result (list string) :=
  match command with
  | JStr c =>
      if truthy command
      then match split c with
           | first :: _ => Ret ["running " +:+ first; "command " +:+ c]
           | [] => Raise IndexError
           end
      else Ret []
  | other => if truthy other then Raise AttributeError else Ret []
  end.

(** The contexts of lines 66-96, before the general ones. *)
Definition tool_contexts (tool_name tool_input : json) : result (list string) :=
  if named tool_name "Edit" then
    match get_or_empty tool_input "file_path" with
    | Ret file_path => file_contexts "editing " "file " file_path language_contexts
    | Raise e => Raise e
    end
  else if named tool_name "Write" then
    match get_or_empty tool_input "file_path" with
    | Ret file_path => file_contexts "creating " "new file " file_path (fun _ => [])
    | Raise e => Raise e
    end
  else if named tool_name "Bash" then
    match get_or_empty tool_input "command" with
    | Ret command => command_contexts command
    | Raise e => Raise e
    end
  else if named tool_name "Read" then
    match get_or_empty tool_input "file_path" with
    | Ret file_path => file_contexts "reading " "file content " file_path (fun _ => [])
    | Raise e => Raise e
    end
  else Ret [].

(** [get_context_from_tool(tool_name, tool_input)] when [os.getcwd()] is
    [cwd]. *)
Definition get_context_from_tool (cwd : string) (tool_name tool_input : json)
  : result (list string) :=
  match tool_contexts tool_name tool_input with
  | Ret contexts =>
      Ret (contexts ++ ["project " +:+ basename cwd; "recent work"])
  | Raise e => Raise e
  end.

End Contexts.

(** A float counted as true when its literal has a digit other than 0
    before the exponent; used to run the function on concrete inputs. It
    differs from Python on a literal that rounds to zero, such as
    [1e-400]. *)
Fixpoint mantissa_nonzero (literal : string) : bool :=
  match literal with
  | EmptyString => false
  | String c rest =>
      if Ascii.eqb c "e" || Ascii.eqb c "E" then false
      else if Ascii.eqb c "N" || Ascii.eqb c "I" then true
      else ((49 <=? nat_of_ascii c) && (nat_of_ascii c <=? 57))
           || mantissa_nonzero rest
  end.

End Hook.

(* ===================================================================== *)
(** ** Facts about text *)
(* ===================================================================== *)

Module TextFacts.
Import Text.

Lemma append_nil (s : string) : "" +:+ s = s.
Proof. reflexivity. Qed.

Lemma append_cons (c : ascii) (a b : string) :
  String c a +:+ b = String c (a +:+ b).
Proof. reflexivity. Qed.

Ltac push_append := rewrite ?append_cons, ?append_nil.

Lemma append_assoc (a b c : string) : (a +:+ b) +:+ c = a +:+ (b +:+ c).
Proof.
  induction a as [|x a IH]; push_append; [reflexivity | now rewrite IH].
Qed.

Lemma append_empty_r (a : string) : a +:+ "" = a.
Proof.
  induction a as [|x a IH]; push_append; [reflexivity | now rewrite IH].
Qed.

Lemma lstrip_space_app (pre s : string) :
  all_space pre = true -> lstrip (pre +:+ s) = lstrip s.
Proof.
  induction pre as [|c pre IH]; push_append; simpl; [reflexivity |].
  intros H. apply andb_prop in H as [Hc Hpre]. rewrite Hc. auto.
Qed.

Lemma rstrip_all_space (s : string) : all_space s = true -> rstrip s = "".
Proof.
  induction s as [|c s IH]; simpl; [reflexivity |].
  intros H. apply andb_prop in H as [Hc Hs]. now rewrite (IH Hs), Hc.
Qed.

Lemma rstrip_app_space (s post : string) :
  all_space post = true -> rstrip (s +:+ post) = rstrip s.
Proof.
  intros H. induction s as [|c s IH]; push_append; simpl.
  - now apply rstrip_all_space.
  - now rewrite IH.
Qed.

(** A text that ends with something [rstrip] keeps is kept whole. *)
Lemma rstrip_app_kept (a b : string) :
  b <> "" -> rstrip b = b -> rstrip (a +:+ b) = a +:+ b.
Proof.
  intros Hne Hb. induction a as [|c a IH]; push_append; simpl; [exact Hb |].
  rewrite IH. destruct (a +:+ b) eqn:E; [| reflexivity].
  destruct a; [rewrite append_nil in E; congruence | discriminate].
Qed.

Lemma prefix_append (p s : string) : String.prefix p (p +:+ s) = true.
Proof.
  induction p as [|c p IH]; push_append; [now destruct s |].
  simpl. destruct (ascii_dec c c); [exact IH | congruence].
Qed.

Lemma replace_from_drop (old new a s : string) :
  replace_from old new (String.length a) (a +:+ s) = replace_from old new 0 s.
Proof. induction a as [|c a IH]; push_append; [reflexivity | exact IH]. Qed.

(** An occurrence of [old] at the head is replaced. *)
Lemma replace_from_head (c : ascii) (old' new s : string) :
  replace_from (String c old') new 0 (String c old' +:+ s)
  = new +:+ replace_from (String c old') new 0 s.
Proof.
  rewrite append_cons.
  change (replace_from (String c old') new 0 (String c (old' +:+ s)))
    with (if String.prefix (String c old') (String c (old' +:+ s))
          then new +:+ replace_from (String c old') new
                         (String.length (String c old') - 1) (old' +:+ s)
          else String c (replace_from (String c old') new 0 (old' +:+ s))).
  rewrite <- append_cons, prefix_append. f_equal.
  replace (String.length (String c old') - 1) with (String.length old')
    by (simpl; lia).
  apply replace_from_drop.
Qed.

End TextFacts.

(* ===================================================================== *)
(** ** Stripping the fence *)
(* ===================================================================== *)

(** The white space around a fenced response goes first. *)
Lemma strip_fenced (pre body post : string) :
  Text.all_space pre = true -> Text.all_space post = true ->
  Text.strip (fenced pre body post) = "```json" +:+ body +:+ "```".
Proof.
  intros Hpre Hpost. unfold fenced, Text.strip.
  rewrite (TextFacts.lstrip_space_app _ _ Hpre).
  change (Text.lstrip ("```json" +:+ body +:+ "```" +:+ post))
    with ("```json" +:+ body +:+ "```" +:+ post).
  rewrite <- (TextFacts.append_assoc body "```" post).
  rewrite <- (TextFacts.append_assoc "```json" (body +:+ "```") post).
  rewrite (TextFacts.rstrip_app_space _ _ Hpost).
  rewrite <- (TextFacts.append_assoc "```json" body "```").
  now apply TextFacts.rstrip_app_kept.
Qed.

(** *** Contents with backquotes *)

Module FenceFacts.
Import Text.

Lemma prefix_nil (s : string) : String.prefix EmptyString s = true.
Proof. now destruct s. Qed.

Lemma prefix_cons (a b : ascii) (p s : string) :
  String.prefix (String a p) (String b s)
  = Ascii.eqb a b && String.prefix p s.
Proof.
  simpl. destruct (ascii_dec a b) as [->|Hne].
  - now rewrite Ascii.eqb_refl.
  - apply Ascii.eqb_neq in Hne. now rewrite Hne.
Qed.

Lemma occurs_cons (sub : string) (c : ascii) (s : string) :
  occurs sub (String c s) = String.prefix sub (String c s) || occurs sub s.
Proof. reflexivity. Qed.

Lemma replace_from_zero (old new : string) (c : ascii) (s : string) :
  replace_from old new 0 (String c s)
  = if String.prefix old (String c s)
    then new +:+ replace_from old new (String.length old - 1) s
    else String c (replace_from old new 0 s).
Proof. reflexivity. Qed.

(** A prefix of a prefix. *)
Lemma prefix_app_l (a b : string) :
  forall s, String.prefix (a +:+ b) s = true -> String.prefix a s = true.
Proof.
  induction a as [|x a IH]; intros s; [intros _; apply prefix_nil |].
  rewrite TextFacts.append_cons. destruct s as [|y s]; [discriminate |].
  rewrite !prefix_cons. intros H. apply andb_prop in H as [-> H].
  now rewrite (IH _ H).
Qed.

Lemma prefix_occurs (sub s : string) :
  String.prefix sub s = true -> occurs sub s = true.
Proof.
  intros H. destruct s as [|c s];
    [change (occurs sub EmptyString)
       with (String.prefix sub EmptyString || false)
    | rewrite occurs_cons];
    now rewrite H.
Qed.

(** What [rstrip] keeps is the head of the text, and what [lstrip] keeps is
    its tail. *)
Lemma prefix_rstrip (s : string) :
  forall p, String.prefix p (rstrip s) = true -> String.prefix p s = true.
Proof.
  induction s as [|c s IH]; intros p; [trivial |].
  destruct p as [|a p]; [intros _; apply prefix_nil |].
  cbn [rstrip]. destruct (rstrip s) as [|r0 r] eqn:E.
  - destruct (is_space c); [discriminate |].
    rewrite !prefix_cons. intros H. apply andb_prop in H as [-> H].
    destruct p; [now rewrite prefix_nil | discriminate].
  - rewrite !prefix_cons. intros H. apply andb_prop in H as [-> H].
    now rewrite (IH _ H).
Qed.

Lemma occurs_lstrip (sub s : string) :
  occurs sub (lstrip s) = true -> occurs sub s = true.
Proof.
  induction s as [|c s IH]; [trivial |]. cbn [lstrip].
  destruct (is_space c); [| trivial].
  intros H. rewrite occurs_cons, (IH H). apply orb_true_r.
Qed.

(** A text that starts with the marker after stripping holds three
    backquotes in a row. *)
Lemma startswith_marker_occurs (s : string) :
  startswith (strip s) "```json" = true -> occurs "```" s = true.
Proof.
  unfold startswith, strip. intros H.
  apply occurs_lstrip, prefix_occurs, (prefix_app_l "```" "json").
  now apply prefix_rstrip.
Qed.

(** A text without the marker is left as it is by [replace]. *)
Lemma replace_from_absent (a : ascii) (old' new s : string) :
  occurs (String a old') s = false ->
  replace_from (String a old') new 0 s = s.
Proof.
  induction s as [|c s IH]; [reflexivity |].
  rewrite occurs_cons. intros H. apply orb_false_elim in H as [Hp Ho].
  now rewrite replace_from_zero, Hp, (IH Ho).
Qed.

Ltac head_char E :=
  rewrite ?TextFacts.append_cons, ?prefix_cons in *;
  match goal with
  | |- context [Ascii.eqb "`" ?c] => destruct (Ascii.eqb "`" c) eqn:E
  end;
  cbn [andb] in *.

(** The closing marker does not make the long marker appear. *)
Lemma no_long_marker (body : string) :
  occurs "```" body = false -> occurs "```json" (body +:+ "```") = false.
Proof.
  induction body as [|c b IH]; intros H; [reflexivity |].
  rewrite occurs_cons in H. apply orb_false_elim in H as [Hp Ho].
  rewrite TextFacts.append_cons, occurs_cons, (IH Ho), orb_false_r.
  head_char E1; [| reflexivity].
  destruct b as [|c2 b2]; [reflexivity |].
  head_char E2; [| reflexivity].
  destruct b2 as [|c3 b3]; [reflexivity |].
  head_char E3; [| reflexivity].
  now rewrite prefix_nil in Hp.
Qed.

(** Deleting the marker from a content without it, followed by the closing
    marker, gives the content back, also when the content ends with one or
    two backquotes. *)
Lemma replace_closing_marker (body : string) :
  occurs "```" body = false ->
  replace_from "```" EmptyString 0 (body +:+ "```") = body.
Proof.
  induction body as [|c b IH]; intros H; [reflexivity |].
  rewrite occurs_cons in H. apply orb_false_elim in H as [Hp Ho].
  specialize (IH Ho).
  rewrite TextFacts.append_cons, replace_from_zero.
  head_char E1; [| now rewrite IH].
  apply Ascii.eqb_eq in E1. subst c.
  destruct b as [|c2 b2]; [reflexivity |].
  head_char E2; [| now rewrite IH].
  apply Ascii.eqb_eq in E2. subst c2.
  destruct b2 as [|c3 b3]; [reflexivity |].
  head_char E3; [| now rewrite IH].
  now rewrite prefix_nil in Hp.
Qed.

End FenceFacts.

(** A fenced response whose content holds no three backquotes in a row is
    parsed as its content, stripped. *)
Lemma unfence_fenced_content (pre body post : string) :
  Text.all_space pre = true -> Text.all_space post = true ->
  Text.occurs "```" body = false ->
  unfence (fenced pre body post) = Text.strip body.
Proof.
  intros Hpre Hpost Hbody. unfold unfence.
  rewrite (strip_fenced _ _ _ Hpre Hpost).
  unfold Text.startswith. rewrite TextFacts.prefix_append. f_equal.
  unfold Text.replace.
  rewrite TextFacts.replace_from_head, TextFacts.append_nil.
  rewrite (FenceFacts.replace_from_absent "`" "``json" EmptyString
             (body +:+ "```"))
    by now apply FenceFacts.no_long_marker.
  now apply FenceFacts.replace_closing_marker.
Qed.

(** A response that holds no three backquotes in a row is parsed as it is,
    stripped. *)
Lemma unfence_content (body : string) :
  Text.occurs "```" body = false -> unfence body = Text.strip body.
Proof.
  intros Hbody. unfold unfence.
  destruct (Text.startswith (Text.strip body) "```json") eqn:E; [| reflexivity].
  apply FenceFacts.startswith_marker_occurs in E. congruence.
Qed.

(** A response that opens with three backquotes not followed by [json] is
    not unfenced: only the white space around it goes. *)
Lemma unfence_other_label (pre rest : string) :
  Text.all_space pre = true ->
  Text.startswith rest "json" = false ->
  unfence (pre +:+ "```" +:+ rest) = Text.strip (pre +:+ "```" +:+ rest).
Proof.
  intros Hpre Hrest. unfold unfence.
  destruct (Text.startswith (Text.strip (pre +:+ "```" +:+ rest)) "```json")
    eqn:E; [| reflexivity].
  unfold Text.startswith, Text.strip in E.
  rewrite (TextFacts.lstrip_space_app _ _ Hpre) in E.
  change (Text.lstrip ("```" +:+ rest)) with ("```" +:+ rest) in E.
  apply FenceFacts.prefix_rstrip in E.
  change ("```" +:+ rest)
    with (String "`" (String "`" (String "`" rest))) in E.
  rewrite !FenceFacts.prefix_cons in E. cbn [Ascii.eqb Bool.eqb andb] in E.
  unfold Text.startswith in Hrest. congruence.
Qed.

(* ===================================================================== *)
(** ** Facts about dicts and the store *)
(* ===================================================================== *)

Lemma dict_get_set_eq (k : string) (v : json) (d : list (string * json)) :
  dict_get k (dict_set k v d) = Some v.
Proof.
  induction d as [|[k' v'] d IH]; simpl.
  - now rewrite String.eqb_refl.
  - destruct (String.eqb k' k) eqn:E; simpl; rewrite E; [reflexivity | exact IH].
Qed.

Lemma dict_get_set_ne (k k' : string) (v : json) (d : list (string * json)) :
  k <> k' -> dict_get k (dict_set k' v d) = dict_get k d.
Proof.
  intros Hne. induction d as [|[k0 v0] d IH]; simpl.
  - destruct (String.eqb k' k) eqn:E; [| reflexivity].
    apply String.eqb_eq in E. congruence.
  - destruct (String.eqb k0 k') eqn:E; simpl.
    + apply String.eqb_eq in E. subst k0.
      destruct (String.eqb k' k) eqn:E'; [| reflexivity].
      apply String.eqb_eq in E'. congruence.
    + now rewrite IH.
Qed.

Lemma stamp_of_attributed (session_id : string) (item stamped : json) :
  stamp_of session_id item stamped -> attributed_to session_id stamped.
Proof.
  intros (d & ts & -> & ->). split; [reflexivity |]. simpl.
  rewrite dict_get_set_ne by discriminate. apply dict_get_set_eq.
Qed.

Lemma facts_of_lookup (w : world) (user_id : string) (l : list json) :
  memories (bank w) !! user_id = Some l -> facts_of w user_id = l.
Proof. unfold facts_of. now intros ->. Qed.

Section StoreFacts.

Context {R : Runtime}.

(** What the loop of lines 103-106 does to the world, whether it finishes or
    stops at an item that is not a dict: the items before the stop are
    stamped and appended, in order, and nothing else in the bank changes. *)
Lemma store_memories_run (user_id session_id : string) (items : list json) :
  forall (w : world) (l : list json),
    memories (bank w) !! user_id = Some l ->
    exists stamped,
      Forall2 (stamp_of session_id) (take (length stamped) items) stamped /\
      bank (snd (store_memories user_id session_id items w))
      = Bank (<[user_id := l ++ stamped]> (memories (bank w)))
             (sessions (bank w)) /\
      prompts (snd (store_memories user_id session_id items w)) = prompts w /\
      stdout (snd (store_memories user_id session_id items w)) = stdout w /\
      match fst (store_memories user_id session_id items w) with
      | Ret out => out = stamped /\ length stamped = length items
      | Raise e => e = TypeError /\ length stamped < length items
      end.
Proof.
  induction items as [|memory rest IH]; intros w l Hl.
  - exists []. simpl. rewrite app_nil_r, insert_id by exact Hl.
    destruct w as [[m s] c p o]. repeat split; constructor.
  - destruct memory as [| b | n | f | str | arr | d];
      try (exists []; simpl; rewrite app_nil_r, insert_id by exact Hl;
           destruct w as [[m s] c p o];
           repeat split; try (simpl; lia); constructor).
    set (ts := now_isoformat (clock w)).
    set (m2 := JObj (dict_set "extracted_at" (JStr ts)
                       (dict_set "session_id" (JStr session_id) d))).
    set (w2 := World (Bank (<[user_id := l ++ [m2]]> (memories (bank w)))
                          (sessions (bank w)))
                     (S (clock w)) (prompts w) (stdout w)).
    assert (Hstep : store_memories user_id session_id (JObj d :: rest) w
                    = match store_memories user_id session_id rest w2 with
                      | (Ret others, w') => (Ret (m2 :: others), w')
                      | (Raise e, w') => (Raise e, w')
                      end).
    { simpl. unfold bind, store_memory, bind, lift, now, append_memory, bind,
        get_memories, put_memories, set_memories, ret. simpl. rewrite Hl.
      reflexivity. }
    destruct (IH w2 (l ++ [m2])) as (stamped & Hst & Hbank & Hp & Ho & Hres).
    { simpl. apply lookup_insert_eq. }
    exists (m2 :: stamped). rewrite Hstep.
    destruct (store_memories user_id session_id rest w2) as [[out|e] w'] eqn:E;
      simpl in *.
    + repeat split; try assumption.
      * constructor; [| exact Hst]. now exists d, ts.
      * rewrite Hbank, insert_insert_eq, <- app_assoc. reflexivity.
      * destruct Hres as [-> _]. reflexivity.
      * destruct Hres as [_ ->]. reflexivity.
    + repeat split; try assumption.
      * constructor; [| exact Hst]. now exists d, ts.
      * rewrite Hbank, insert_insert_eq, <- app_assoc. reflexivity.
      * tauto.
      * lia.
Qed.

End StoreFacts.

Section MethodFacts.

Context {R : Runtime}.

Ltac step :=
  cbv beta iota;
  cbn [fst snd bank memories sessions clock prompts stdout negb].

Ltac run :=
  unfold bind, lift, ret, try_except, generate, print_error, in_memories,
    in_sessions, get_memories, get_sessions, put_memories, put_sessions,
    set_memories, set_sessions, prompted, logged; step.

(** When the generation call raises or its text does not parse, the body of
    the [try] of [extract_memories] stops with that exception, and only the
    prompt has been recorded. *)
Lemma extract_body_stops (user_id session_id prompt : string) (w : world)
    (e : exn) :
  parsed_response (length (prompts w)) prompt = Raise e ->
  extract_body user_id session_id prompt w = (Raise e, prompted prompt w).
Proof.
  unfold parsed_response, extract_body. run. intros H.
  destruct (generate_content (length (prompts w)) prompt) as [text|e'];
    [| congruence].
  now rewrite H.
Qed.

(** When the text parses, the body appends the items it stamps, and nothing
    else changes in the bank. *)
Lemma extract_body_run (user_id session_id prompt : string) (w : world)
    (parsed : json) :
  parsed_response (length (prompts w)) prompt = Ret parsed ->
  exists stamped,
    bank (snd (extract_body user_id session_id prompt w))
    = Bank (<[user_id := facts_of w user_id ++ stamped]> (memories (bank w)))
           (sessions (bank w)) /\
    prompts (snd (extract_body user_id session_id prompt w))
    = prompts w ++ [prompt] /\
    stdout (snd (extract_body user_id session_id prompt w)) = stdout w /\
    Forall (attributed_to session_id) stamped /\
    match fst (extract_body user_id session_id prompt w) with
    | Ret v =>
        exists items,
          py_iter parsed = Ret items /\
          Forall2 (stamp_of session_id) items stamped /\
          v = after_loop parsed stamped
    | Raise e => e = TypeError
    end.
Proof.
  unfold parsed_response. intros H. destruct w as [[m s] c p o].
  cbn [prompts] in H.
  destruct (generate_content (length p) prompt) as [text|e'] eqn:G;
    [| discriminate].
  set (w := World (Bank m s) c p o).
  set (l0 := facts_of w user_id).
  set (w2 := World (Bank (<[user_id := l0]> (memories (bank w)))
                        (sessions (bank w)))
                   (clock w) (prompts w ++ [prompt]) (stdout w)).
  assert (Hbody : extract_body user_id session_id prompt w
    = match py_iter parsed with
      | Raise e => (Raise e, w2)
      | Ret items =>
          match store_memories user_id session_id items w2 with
          | (Ret stamped, w') => (Ret (after_loop parsed stamped), w')
          | (Raise e, w') => (Raise e, w')
          end
      end).
  { unfold extract_body, w2, l0, facts_of, w. run. rewrite G.
    cbn [fst snd]. rewrite H. cbn [fst snd].
    destruct (m !! user_id) as [l|] eqn:E; simpl.
    - rewrite (insert_id _ _ _ E). destruct (py_iter parsed); reflexivity.
    - destruct (py_iter parsed); reflexivity. }
  rewrite Hbody. destruct (py_iter parsed) as [items|e] eqn:I.
  - destruct (store_memories_run user_id session_id items w2 l0)
      as (stamped & Hst & Hbank & Hp & Ho & Hres).
    { simpl. apply lookup_insert_eq. }
    exists stamped.
    destruct (store_memories user_id session_id items w2) as [[out|e] w'];
      simpl in *.
    + destruct Hres as [-> Hlen]. rewrite Hlen, firstn_all in Hst.
      repeat split; try assumption.
      * rewrite Hbank, insert_insert_eq. reflexivity.
      * eapply Forall2_Forall_r; [exact Hst |].
        apply Forall_forall. intros x _ y. apply stamp_of_attributed.
      * exists items. auto.
    + repeat split; try assumption.
      * rewrite Hbank, insert_insert_eq. reflexivity.
      * eapply Forall2_Forall_r; [exact Hst |].
        apply Forall_forall. intros x _ y. apply stamp_of_attributed.
      * tauto.
  - exists []. simpl. unfold l0. rewrite app_nil_r. repeat split.
    + constructor.
    + destruct parsed; simpl in I; congruence.
Qed.

(** [extract_memories] in one equation: nothing happens without a turn of
    the session; otherwise the body of the [try] runs and an exception is
    turned into a printed line and an empty list. *)
Lemma extract_memories_run (user_id session_id : string) (w : world) :
  extract_memories user_id session_id w
  = match session_messages session_id (turns_of w user_id) with
    | [] => (Ret (JArr []), w)
    | _ :: _ =>
        match extract_body user_id session_id
                (extract_prompt_of w user_id session_id) w with
        | (Ret v, w') => (Ret v, w')
        | (Raise e, w') =>
            (Ret (JArr []), logged "Error extracting memories: " e w')
        end
    end.
Proof.
  unfold extract_memories, extract_prompt_of, turns_of. run.
  destruct (sessions (bank w) !! user_id) as [history|] eqn:E; step;
    [| reflexivity].
  rewrite E. step. change (default [] (Some history)) with history.
  destruct (session_messages session_id history); reflexivity.
Qed.

(** [search_memories] in one equation. *)
Lemma search_memories_run (user_id query : string) (w : world) :
  search_memories user_id query w
  = match facts_of w user_id with
    | [] => (Ret (JArr []), w)
    | _ :: _ =>
        let prompt := search_prompt_of w user_id query in
        match parsed_response (length (prompts w)) prompt with
        | Ret v => (Ret v, prompted prompt w)
        | Raise e =>
            (Ret (JArr (take 3 (facts_of w user_id))),
             logged "Error searching memories: " e (prompted prompt w))
        end
    end.
Proof.
  unfold search_memories, search_body, search_prompt_of, parsed_response,
    facts_of. run.
  destruct (memories (bank w) !! user_id) as [[|fact l]|] eqn:E; step;
    rewrite ?E; step; try reflexivity.
  destruct (generate_content _ _) as [text|e]; [| reflexivity].
  destruct (json_loads _); reflexivity.
Qed.

(** [get_memory_summary] in one equation. *)
Lemma get_memory_summary_run (user_id : string) (w : world) :
  get_memory_summary user_id w
  = match facts_of w user_id with
    | [] => (Ret no_memories, w)
    | _ :: _ =>
        match memory_facts (facts_of w user_id) with
        | Ret facts =>
            (Ret ("User has " +:+ Text.decimal (length (facts_of w user_id))
                  +:+ " stored memories:" +:+ Text.nl
                  +:+ Text.join Text.nl
                        (map (fun fact => "- " +:+ fmt fact) facts)), w)
        | Raise e => (Raise e, w)
        end
    end.
Proof.
  unfold get_memory_summary, facts_of. run.
  destruct (memories (bank w) !! user_id) as [[|fact l]|] eqn:E; step;
    rewrite ?E; step; reflexivity.
Qed.

(** [add_session_message] in one equation. *)
Lemma add_session_message_run (user_id session_id role content : string)
    (w : world) :
  add_session_message user_id session_id role content w
  = (Ret tt,
     World (Bank (memories (bank w))
                 (<[user_id := turns_of w user_id
                               ++ [Message session_id role content
                                     (now_isoformat (clock w))]]>
                    (sessions (bank w))))
           (S (clock w)) (prompts w) (stdout w)).
Proof.
  unfold add_session_message, turns_of, now. run.
  destruct (sessions (bank w) !! user_id) as [history|] eqn:E; step.
  - rewrite E. reflexivity.
  - rewrite lookup_insert_eq. step. rewrite insert_insert_eq. reflexivity.
Qed.

End MethodFacts.

Lemma facts_of_one_fact : facts_of one_fact "u1" = [pizza_fact].
Proof. vm_compute. reflexivity. Qed.

Lemma turns_of_one_turn :
  turns_of one_turn "u1"
  = [Message "s1" "user" "I love pizza and window seats"
       "2025-01-01T00:00:00.000001"].
Proof. vm_compute. reflexivity. Qed.

(* ===================================================================== *)
(** ** The methods never raise *)
(* ===================================================================== *)

(** Whatever the generation call and the decoder do, [extract_memories]
    returns. *)
Lemma extract_memories_never_raises `{R : Runtime} (user_id session_id : string)
    (w : world) :
  exists v, fst (extract_memories user_id session_id w) = Ret v.
Proof.
  rewrite extract_memories_run.
  destruct (session_messages session_id (turns_of w user_id)); [now eexists |].
  destruct (extract_body _ _ _ _) as [[v|e] w']; now eexists.
Qed.

(** Whatever the generation call and the decoder do, [search_memories]
    returns. *)
Lemma search_memories_never_raises `{R : Runtime} (user_id query : string)
    (w : world) :
  exists v, fst (search_memories user_id query w) = Ret v.
Proof.
  rewrite search_memories_run.
  destruct (facts_of w user_id); [now eexists |].
  cbv zeta. destruct (parsed_response _ _); now eexists.
Qed.

(* ===================================================================== *)
(** ** add_session_message *)
(* ===================================================================== *)

(** C6, as the code has it. [add_session_message] validates nothing: for
    every user id, the empty one included, it returns after appending exactly
    one turn, made of its arguments and the time, to the turn list of that
    user (an unknown user gets a list first); the turns of the other users,
    the facts, the prompts and the printed lines are as before. *)
Theorem add_session_message_appends `{R : Runtime}
    (user_id session_id role content : string) (w : world) :
  exists w',
    add_session_message user_id session_id role content w = (Ret tt, w') /\
    turns_of w' user_id
    = turns_of w user_id
      ++ [Message session_id role content (now_isoformat (clock w))] /\
    (forall other, other <> user_id ->
       sessions (bank w') !! other = sessions (bank w) !! other) /\
    memories (bank w') = memories (bank w) /\
    prompts w' = prompts w /\
    stdout w' = stdout w.
Proof.
  rewrite add_session_message_run. eexists. split; [reflexivity |].
  unfold turns_of. simpl. rewrite lookup_insert_eq. simpl.
  repeat split. intros other Hne. now rewrite lookup_insert_ne.
Qed.

(** C6, the claim as stated fails: an empty user id is not rejected, its
    turn is stored under the empty key. *)
Lemma add_session_message_empty_user_stored :
  fst (add_session_message (R := rt "") "" "s1" "user" "hello" new_world)
  = Ret tt /\
  turns_of
    (snd (add_session_message (R := rt "") "" "s1" "user" "hello" new_world))
    ""
  = [Message "s1" "user" "hello" "2025-01-01T00:00:00.000001"].
Proof. split; vm_compute; reflexivity. Qed.

(* ===================================================================== *)
(** ** extract_memories *)
(* ===================================================================== *)

Lemma session_messages_none (session_id : string) (history : list message) :
  Forall (fun msg => msg_session_id msg <> session_id) history ->
  session_messages session_id history = [].
Proof.
  unfold session_messages. induction 1 as [|msg l Hmsg _ IH];
    [reflexivity |].
  now rewrite filter_cons_False.
Qed.

(** C8. When none of the user's turns carries the given session id (so also
    for a user without turns), [extract_memories] returns the empty list and
    the world is as before: no prompt was sent to the generation call and
    the store is not modified. *)
Theorem extract_memories_no_turns `{R : Runtime} (user_id session_id : string)
    (w : world) :
  Forall (fun msg => msg_session_id msg <> session_id) (turns_of w user_id) ->
  extract_memories user_id session_id w = (Ret (JArr []), w).
Proof.
  intros H. rewrite extract_memories_run.
  now rewrite (session_messages_none _ _ H).
Qed.

Lemma extract_memories_no_turns_witness :
  Forall (fun msg => msg_session_id msg <> "s2") (turns_of one_turn "u1") /\
  extract_memories (R := rt "[]") "u1" "s2" one_turn = (Ret (JArr []), one_turn).
Proof.
  assert (H : Forall (fun msg => msg_session_id msg <> "s2")
                (turns_of one_turn "u1")).
  { rewrite turns_of_one_turn. repeat constructor. discriminate. }
  split; [exact H |].
  exact (extract_memories_no_turns (R := rt "[]") "u1" "s2" one_turn H).
Defined.

Section ExtractFacts.

Context {R : Runtime}.

(** The facts of a user after the body of the [try] has run. *)
Lemma facts_after_insert (w w' : world) (user_id : string) (l : list json) :
  bank w' = Bank (<[user_id := l]> (memories (bank w))) (sessions (bank w)) ->
  facts_of w' user_id = l /\
  sessions (bank w') = sessions (bank w) /\
  (forall other, other <> user_id ->
     memories (bank w') !! other = memories (bank w) !! other).
Proof.
  intros H. unfold facts_of. rewrite H. simpl. rewrite lookup_insert_eq.
  repeat split. intros other Hne. now rewrite lookup_insert_ne.
Qed.

(** The body of the [try] returns only when the response parsed. *)
Lemma extract_body_returns_parsed (user_id session_id prompt : string)
    (w w' : world) (v : json) :
  extract_body user_id session_id prompt w = (Ret v, w') ->
  exists parsed, parsed_response (length (prompts w)) prompt = Ret parsed.
Proof.
  intros H. destruct (parsed_response (length (prompts w)) prompt) as [p|e] eqn:E;
    [now exists p |].
  rewrite (extract_body_stops _ _ _ _ _ E) in H. discriminate.
Qed.

End ExtractFacts.

(** C4. When [extract_memories] succeeds, that is when the body of its [try]
    runs to the [return] of line 108, the parsed object was iterated over N
    items, every item was a dict, and the user's fact collection is the old
    one followed by the N stamped items: its length grows by exactly N, and
    every new fact carries the session id of the call under [session_id],
    whatever the parsed item had there. *)
Theorem extract_memories_success `{R : Runtime} (user_id session_id : string)
    (w w' : world) (v : json) :
  session_messages session_id (turns_of w user_id) <> [] ->
  extract_body user_id session_id (extract_prompt_of w user_id session_id) w
  = (Ret v, w') ->
  exists parsed items stamped,
    parsed_response (length (prompts w))
      (extract_prompt_of w user_id session_id) = Ret parsed /\
    py_iter parsed = Ret items /\
    extract_memories user_id session_id w = (Ret v, w') /\
    v = after_loop parsed stamped /\
    Forall2 (stamp_of session_id) items stamped /\
    facts_of w' user_id = facts_of w user_id ++ stamped /\
    length (facts_of w' user_id)
    = length (facts_of w user_id) + length items /\
    Forall (fun fact => field "session_id" fact = Some (JStr session_id))
      stamped.
Proof.
  intros Hmsgs Hbody.
  destruct (extract_body_returns_parsed _ _ _ _ _ _ Hbody) as [parsed Hp].
  destruct (extract_body_run user_id session_id _ w parsed Hp)
    as (stamped & Hbank & _ & _ & Hattr & Hres).
  rewrite Hbody in Hbank, Hres. simpl in Hbank, Hres.
  destruct Hres as (items & Hiter & Hst & ->).
  destruct (facts_after_insert _ _ _ _ Hbank) as (Hfacts & _ & _).
  exists parsed, items, stamped. repeat split; try assumption.
  - rewrite extract_memories_run, Hbody.
    destruct (session_messages session_id (turns_of w user_id));
      [congruence | reflexivity].
  - rewrite Hfacts, length_app. f_equal. symmetry.
    eapply Forall2_length. exact Hst.
  - eapply Forall_impl; [exact Hattr |]. intros fact [_ H]. exact H.
Qed.

Lemma extract_memories_success_witness :
  let R := rt "[{'fact': 'loves pizza', 'session_id': 'elsewhere'}]" in
  let v := JArr [JObj [("fact", JStr "loves pizza"); ("session_id", JStr "s1");
                       ("extracted_at", JStr "2025-01-01T00:00:00.000002")]] in
  let w' := snd (extract_body "u1" "s1" (extract_prompt_of one_turn "u1" "s1")
                   one_turn) in
  session_messages "s1" (turns_of one_turn "u1") <> [] /\
  extract_body "u1" "s1" (extract_prompt_of one_turn "u1" "s1") one_turn
  = (Ret v, w') /\
  exists parsed items stamped,
    parsed_response (length (prompts one_turn))
      (extract_prompt_of one_turn "u1" "s1") = Ret parsed /\
    py_iter parsed = Ret items /\
    extract_memories "u1" "s1" one_turn = (Ret v, w') /\
    v = after_loop parsed stamped /\
    Forall2 (stamp_of "s1") items stamped /\
    facts_of w' "u1" = facts_of one_turn "u1" ++ stamped /\
    length (facts_of w' "u1") = length (facts_of one_turn "u1") + length items /\
    Forall (fun fact => field "session_id" fact = Some (JStr "s1")) stamped.
Proof.
  intros R v w'.
  assert (H1 : session_messages "s1" (turns_of one_turn "u1") <> [])
    by (vm_compute; discriminate).
  assert (H2 : extract_body "u1" "s1" (extract_prompt_of one_turn "u1" "s1")
                 one_turn = (Ret v, w'))
    by (vm_compute; reflexivity).
  split; [exact H1 |]. split; [exact H2 |].
  exact (extract_memories_success "u1" "s1" one_turn w' v H1 H2).
Defined.

(** C2, the claim as stated fails: the second item of the response is not a
    dict, the call prints the error and returns the empty list, and the
    first item, already stamped, stays in the collection. *)
Lemma extract_memories_failure_keeps_items :
  let after := snd (extract_memories (R := rt "[{}, 1]") "u1" "s1" one_turn) in
  fst (extract_memories (R := rt "[{}, 1]") "u1" "s1" one_turn) = Ret (JArr []) /\
  stdout after = [("Error extracting memories: ", TypeError)] /\
  facts_of one_turn "u1" = [] /\
  facts_of after "u1"
  = [JObj [("session_id", JStr "s1");
           ("extracted_at", JStr "2025-01-01T00:00:00.000002")]].
Proof. repeat split; vm_compute; reflexivity. Qed.

(** C2, as the code has it. When [extract_memories] fails, that is when the
    body of its [try] raises, the call prints the error and returns the
    empty list; the turns and the facts of the other users are as before,
    and the facts the user had are all kept, in order, at the head of the
    collection (what follows them was stamped by this call). When the
    failure is that of the generation call or of the decoder, the bank is
    exactly as before. *)
Theorem extract_memories_failure_store `{R : Runtime}
    (user_id session_id : string) (w w' : world) (e : exn) :
  session_messages session_id (turns_of w user_id) <> [] ->
  extract_body user_id session_id (extract_prompt_of w user_id session_id) w
  = (Raise e, w') ->
  let after := snd (extract_memories user_id session_id w) in
  fst (extract_memories user_id session_id w) = Ret (JArr []) /\
  stdout after = stdout w ++ [("Error extracting memories: ", e)] /\
  sessions (bank after) = sessions (bank w) /\
  (forall other, other <> user_id ->
     memories (bank after) !! other = memories (bank w) !! other) /\
  (exists added,
     facts_of after user_id = facts_of w user_id ++ added /\
     Forall (attributed_to session_id) added) /\
  (forall e',
     parsed_response (length (prompts w))
       (extract_prompt_of w user_id session_id) = Raise e' ->
     bank after = bank w).
Proof.
  intros Hmsgs Hbody after.
  assert (Hrun : extract_memories user_id session_id w
                 = (Ret (JArr []), logged "Error extracting memories: " e w')).
  { rewrite extract_memories_run, Hbody.
    destruct (session_messages session_id (turns_of w user_id));
      [congruence | reflexivity]. }
  unfold after. rewrite Hrun. cbn [fst snd logged bank stdout].
  split; [reflexivity |].
  destruct (parsed_response (length (prompts w))
              (extract_prompt_of w user_id session_id)) as [parsed|e0] eqn:Hp.
  - destruct (extract_body_run user_id session_id _ w parsed Hp)
      as (stamped & Hbank & _ & Hout & Hattr & _).
    rewrite Hbody in Hbank, Hout. cbn [snd] in Hbank, Hout.
    destruct (facts_after_insert _ _ _ _ Hbank) as (Hfacts & Hs & Ho).
    rewrite Hout. repeat split; try assumption.
    + exists stamped. split; [| exact Hattr].
      unfold facts_of in *. exact Hfacts.
    + discriminate.
  - rewrite (extract_body_stops _ _ _ _ _ Hp) in Hbody.
    injection Hbody as <- <-. cbn [prompted bank stdout].
    repeat split.
    exists []. rewrite app_nil_r. split; [reflexivity | constructor].
Qed.

Lemma extract_memories_failure_store_witness :
  let R := rt "Sure! Here are the facts." in
  let w' := prompted (extract_prompt_of one_turn "u1" "s1") one_turn in
  let after := snd (extract_memories "u1" "s1" one_turn) in
  session_messages "s1" (turns_of one_turn "u1") <> [] /\
  extract_body "u1" "s1" (extract_prompt_of one_turn "u1" "s1") one_turn
  = (Raise JSONDecodeError, w') /\
  fst (extract_memories "u1" "s1" one_turn) = Ret (JArr []) /\
  stdout after
  = stdout one_turn ++ [("Error extracting memories: ", JSONDecodeError)] /\
  sessions (bank after) = sessions (bank one_turn) /\
  (forall other, other <> "u1" ->
     memories (bank after) !! other = memories (bank one_turn) !! other) /\
  (exists added,
     facts_of after "u1" = facts_of one_turn "u1" ++ added /\
     Forall (attributed_to "s1") added) /\
  (forall e',
     parsed_response (length (prompts one_turn))
       (extract_prompt_of one_turn "u1" "s1") = Raise e' ->
     bank after = bank one_turn).
Proof.
  intros R w' after.
  assert (H1 : session_messages "s1" (turns_of one_turn "u1") <> [])
    by (vm_compute; discriminate).
  assert (H2 : extract_body "u1" "s1" (extract_prompt_of one_turn "u1" "s1")
                 one_turn = (Raise JSONDecodeError, w'))
    by (vm_compute; reflexivity).
  split; [exact H1 |]. split; [exact H2 |].
  exact (extract_memories_failure_store "u1" "s1" one_turn w' JSONDecodeError
           H1 H2).
Defined.

(* ===================================================================== *)
(** ** search_memories *)
(* ===================================================================== *)

(** The bank after a search is the bank before it. *)
Lemma search_memories_bank `{R : Runtime} (user_id query : string) (w : world) :
  bank (snd (search_memories user_id query w)) = bank w.
Proof.
  rewrite search_memories_run. destruct (facts_of w user_id); [reflexivity |].
  cbv zeta. destruct (parsed_response _ _); reflexivity.
Qed.

(** C9. [search_memories] is read-only: whatever the generation call does,
    the bank after the call, that is the whole [memories] map and the whole
    [sessions] map, is the bank before it. *)
Theorem search_memories_read_only `{R : Runtime} (user_id query : string)
    (w : world) :
  memories (bank (snd (search_memories user_id query w))) = memories (bank w) /\
  sessions (bank (snd (search_memories user_id query w))) = sessions (bank w).
Proof. now rewrite search_memories_bank. Qed.

(** C5. For a user with stored facts, when the generation call raises or its
    text does not parse, [search_memories] returns the first
    [min 3 (number of facts)] facts in the order they were stored: at most
    three items, never none, and no exception. *)
Theorem search_memories_fallback `{R : Runtime} (user_id query : string)
    (w : world) (e : exn) :
  facts_of w user_id <> [] ->
  parsed_response (length (prompts w)) (search_prompt_of w user_id query)
  = Raise e ->
  let found :=
    take (min 3 (length (facts_of w user_id))) (facts_of w user_id) in
  fst (search_memories user_id query w) = Ret (JArr found) /\
  length found = min 3 (length (facts_of w user_id)) /\
  length found <= 3 /\
  found <> [].
Proof.
  intros Hfacts Hp found.
  assert (Hfound : found = take 3 (facts_of w user_id)).
  { unfold found. destruct (Nat.min_spec 3 (length (facts_of w user_id)))
      as [[_ ->]|[Hle ->]]; [reflexivity |].
    now rewrite firstn_all, take_ge. }
  rewrite search_memories_run.
  destruct (facts_of w user_id) as [|fact l] eqn:E; [congruence |].
  cbv zeta. rewrite Hp. cbn [fst].
  rewrite Hfound. repeat split.
  - now rewrite length_take.
  - rewrite length_take. lia.
  - discriminate.
Qed.

Lemma search_memories_fallback_witness :
  let R := ref_runtime (fails (OtherError "ServiceUnavailable")) in
  let found := take (min 3 (length (facts_of one_fact "u1")))
                 (facts_of one_fact "u1") in
  facts_of one_fact "u1" <> [] /\
  parsed_response (length (prompts one_fact))
    (search_prompt_of one_fact "u1" "food")
  = Raise (OtherError "ServiceUnavailable") /\
  fst (search_memories "u1" "food" one_fact) = Ret (JArr found) /\
  length found = min 3 (length (facts_of one_fact "u1")) /\
  length found <= 3 /\
  found <> [].
Proof.
  intros R found.
  assert (H1 : facts_of one_fact "u1" <> [])
    by (rewrite facts_of_one_fact; discriminate).
  assert (H2 : parsed_response (length (prompts one_fact))
                 (search_prompt_of one_fact "u1" "food")
               = Raise (OtherError "ServiceUnavailable"))
    by reflexivity.
  split; [exact H1 |]. split; [exact H2 |].
  exact (search_memories_fallback "u1" "food" one_fact
           (OtherError "ServiceUnavailable") H1 H2).
Defined.

(** C3, the claim as stated fails: the store holds one fact and the response
    is a well-formed list of six items; all six are returned. *)
Lemma search_memories_returns_six :
  length (facts_of one_fact "u1") = 1 /\
  fst (search_memories (R := rt "[1, 2, 3, 4, 5, 6]") "u1" "food" one_fact)
  = Ret (JArr [JInt 1; JInt 2; JInt 3; JInt 4; JInt 5; JInt 6]).
Proof. split; vm_compute; reflexivity. Qed.

(** C3, as the code has it. [search_memories] returns the empty list for a
    user without facts; when the response parses it returns the parsed
    object as it is, so the number of items is the one of the response (the
    limit of five is asked for in the prompt only); otherwise it returns the
    first three facts, which are at most three and no more than are
    stored. *)
Theorem search_memories_size `{R : Runtime} (user_id query : string)
    (w : world) :
  fst (search_memories user_id query w)
  = match facts_of w user_id,
          parsed_response (length (prompts w))
            (search_prompt_of w user_id query) with
    | [], _ => Ret (JArr [])
    | _ :: _, Ret v => Ret v
    | _ :: _, Raise _ => Ret (JArr (take 3 (facts_of w user_id)))
    end /\
  length (take 3 (facts_of w user_id)) <= 3 /\
  length (take 3 (facts_of w user_id)) <= length (facts_of w user_id).
Proof.
  rewrite search_memories_run, length_take. split; [| lia].
  destruct (facts_of w user_id); [reflexivity |].
  cbv zeta. destruct (parsed_response _ _); reflexivity.
Qed.

(** C1, at inputs where the code departs from it. With one stored fact and
    the response [42], [search_memories] returns the int 42, which is not a
    list; with the response [{}], [extract_memories] returns the empty dict.
    Neither call raises. *)
Theorem search_memories_returns_parsed_object :
  fst (search_memories (R := rt "42") "u1" "food" one_fact) = Ret (JInt 42) /\
  is_list (JInt 42) = false /\
  fst (extract_memories (R := rt "{}") "u1" "s1" one_turn) = Ret (JObj []) /\
  is_list (JObj []) = false.
Proof. repeat split; vm_compute; reflexivity. Qed.

(* ===================================================================== *)
(** ** Fenced responses *)
(* ===================================================================== *)

Section SameParse.

Context (R : Runtime) (text1 text2 : string).

Hypothesis same_parse : json_loads (unfence text1) = json_loads (unfence text2).

(** The two methods see a response only through what the decoder makes of
    the text left by [unfence]. *)
Lemma extract_memories_same_parse (user_id session_id : string) (w : world) :
  extract_memories (R := with_response R (answers text1)) user_id session_id w
  = extract_memories (R := with_response R (answers text2)) user_id session_id w.
Proof.
  rewrite !extract_memories_run.
  destruct (session_messages session_id (turns_of w user_id)); [reflexivity |].
  unfold extract_body, bind, lift, generate.
  cbn [generate_content with_response answers json_loads].
  rewrite same_parse. reflexivity.
Qed.

Lemma search_memories_same_parse (user_id query : string) (w : world) :
  search_memories (R := with_response R (answers text1)) user_id query w
  = search_memories (R := with_response R (answers text2)) user_id query w.
Proof.
  rewrite !search_memories_run.
  destruct (facts_of w user_id); [reflexivity |].
  unfold parsed_response.
  cbn [generate_content with_response answers json_loads].
  rewrite same_parse. reflexivity.
Qed.

End SameParse.

(** C7, as the code has it. For a response made of the marker [```json], a
    content in which no three backquotes occur in a row and the closing
    marker [```], with white space around, the text given to the decoder is
    the content stripped of the white space around it; [extract_memories]
    and [search_memories] then return and leave the world exactly as they
    do when the response is the content alone. A response that opens with
    three backquotes not followed by [json] is not unfenced: it is given to
    the decoder with its markers, stripped of the white space around it. *)
Theorem fenced_response_parsed_as_content (R : Runtime)
    (pre body post : string) (user_id session_id query : string) (w : world) :
  Text.all_space pre = true ->
  Text.all_space post = true ->
  Text.occurs "```" body = false ->
  unfence (fenced pre body post) = Text.strip body /\
  extract_memories (R := with_response R (answers (fenced pre body post)))
    user_id session_id w
  = extract_memories (R := with_response R (answers body))
      user_id session_id w /\
  search_memories (R := with_response R (answers (fenced pre body post)))
    user_id query w
  = search_memories (R := with_response R (answers body)) user_id query w /\
  (forall lead rest : string,
     Text.all_space lead = true ->
     Text.startswith rest "json" = false ->
     unfence (lead +:+ "```" +:+ rest)
     = Text.strip (lead +:+ "```" +:+ rest)).
Proof.
  intros Hpre Hpost Hbody.
  assert (H : unfence (fenced pre body post) = unfence body).
  { rewrite unfence_fenced_content, unfence_content by assumption.
    reflexivity. }
  split; [now apply unfence_fenced_content |].
  split; [| split].
  - apply extract_memories_same_parse. now rewrite H.
  - apply search_memories_same_parse. now rewrite H.
  - apply unfence_other_label.
Qed.

Lemma fenced_response_parsed_as_content_witness :
  let R := ref_runtime (answers "") in
  let body :=
    Text.nl +:+ Text.js "[{'fact': 'prefers `strict` mode and ``x``'}]"
    +:+ Text.nl in
  let capitals := "JSON" +:+ Text.nl +:+ "[]" +:+ Text.nl +:+ "```" in
  Text.all_space " " = true /\
  Text.all_space Text.nl = true /\
  Text.occurs "```" body = false /\
  Text.mem "`" body = true /\
  Text.startswith capitals "json" = false /\
  unfence (fenced " " body Text.nl) = Text.strip body /\
  extract_memories (R := with_response R (answers (fenced " " body Text.nl)))
    "u1" "s1" one_turn
  = extract_memories (R := with_response R (answers body)) "u1" "s1" one_turn /\
  search_memories (R := with_response R (answers (fenced " " body Text.nl)))
    "u1" "food" one_fact
  = search_memories (R := with_response R (answers body)) "u1" "food" one_fact /\
  unfence (" " +:+ "```" +:+ capitals) = Text.strip (" " +:+ "```" +:+ capitals).
Proof.
  intros R body capitals.
  assert (H1 : Text.all_space " " = true) by reflexivity.
  assert (H2 : Text.all_space Text.nl = true) by reflexivity.
  assert (H3 : Text.occurs "```" body = false) by reflexivity.
  assert (H4 : Text.mem "`" body = true) by reflexivity.
  assert (H5 : Text.startswith capitals "json" = false) by reflexivity.
  split; [exact H1 |]. split; [exact H2 |]. split; [exact H3 |].
  split; [exact H4 |]. split; [exact H5 |].
  split; [| split; [| split]].
  - exact (proj1 (fenced_response_parsed_as_content R " " body Text.nl
                    "u1" "s1" "food" one_turn H1 H2 H3)).
  - exact (proj1 (proj2 (fenced_response_parsed_as_content R " " body Text.nl
                           "u1" "s1" "food" one_turn H1 H2 H3))).
  - exact (proj1 (proj2 (proj2
             (fenced_response_parsed_as_content R " " body Text.nl
                "u1" "s1" "food" one_fact H1 H2 H3)))).
  - exact (proj2 (proj2 (proj2
             (fenced_response_parsed_as_content R " " body Text.nl
                "u1" "s1" "food" one_fact H1 H2 H3))) " " capitals H1 H5).
Defined.

(** C7, the claim as stated fails. A content with the marker inside a string
    loses it: the fenced response parses to another value than the content.
    A fence labelled in capitals is not stripped and does not parse. *)
Lemma fenced_response_changes_content :
  let body := Text.nl +:+ Text.js "['a```b']" +:+ Text.nl in
  let capitals := "```JSON" +:+ Text.nl +:+ "[]" +:+ Text.nl +:+ "```" in
  Decoder.ref_loads body = Ret (JArr [JStr "a```b"]) /\
  Decoder.ref_loads (unfence (fenced "" body "")) = Ret (JArr [JStr "ab"]) /\
  fst (search_memories (R := ref_runtime (answers (fenced "" body "")))
         "u1" "food" one_fact)
  = Ret (JArr [JStr "ab"]) /\
  Decoder.ref_loads "[]" = Ret (JArr []) /\
  Decoder.ref_loads (unfence capitals) = Raise JSONDecodeError /\
  fst (search_memories (R := ref_runtime (answers capitals))
         "u1" "food" one_fact)
  = Ret (JArr [pizza_fact]).
Proof. repeat split; vm_compute; reflexivity. Qed.

(* ===================================================================== *)
(** ** get_memory_summary and the shape of stored facts *)
(* ===================================================================== *)

(** The bank after [extract_memories]: the facts of the user are the old
    ones followed by dicts, the rest is as before. *)
Lemma extract_memories_bank `{R : Runtime} (user_id session_id : string)
    (w : world) :
  exists added,
    Forall (attributed_to session_id) added /\
    facts_of (snd (extract_memories user_id session_id w)) user_id
    = facts_of w user_id ++ added /\
    forall other, other <> user_id ->
      facts_of (snd (extract_memories user_id session_id w)) other
      = facts_of w other.
Proof.
  rewrite extract_memories_run.
  destruct (session_messages session_id (turns_of w user_id)).
  { exists []. rewrite app_nil_r. repeat split. constructor. }
  destruct (parsed_response (length (prompts w))
              (extract_prompt_of w user_id session_id)) as [parsed|e] eqn:Hp.
  - destruct (extract_body_run user_id session_id _ w parsed Hp)
      as (stamped & Hbank & _ & _ & Hattr & _).
    exists stamped. split; [exact Hattr |].
    assert (Hb : bank (snd (let (r, w') := extract_body user_id session_id
                                (extract_prompt_of w user_id session_id) w in
                            match r with
                            | Ret v => (Ret v, w')
                            | Raise e =>
                                (Ret (JArr []),
                                 logged "Error extracting memories: " e w')
                            end))
                 = bank (snd (extract_body user_id session_id
                                (extract_prompt_of w user_id session_id) w))).
    { destruct (extract_body _ _ _ _) as [[v|e] w']; reflexivity. }
    unfold facts_of. rewrite Hb, Hbank. cbn [memories].
    rewrite lookup_insert_eq. split; [reflexivity |].
    intros other Hne. now rewrite lookup_insert_ne.
  - rewrite (extract_body_stops _ _ _ _ _ Hp).
    exists []. rewrite app_nil_r. repeat split. constructor.
Qed.

(** Every fact of a reachable world is a dict: only [extract_memories]
    stores facts, and what it stores went through the two assignments. *)
Lemma reachable_facts_are_dicts `{R : Runtime} (w : world) :
  reachable w ->
  forall user_id, Forall (fun fact => is_dict fact = true) (facts_of w user_id).
Proof.
  induction 1 as [| w u s r c _ IH | w u s _ IH | w u q _ IH | w u _ IH];
    intros user_id.
  - unfold facts_of. simpl. rewrite lookup_empty. constructor.
  - rewrite add_session_message_run. exact (IH user_id).
  - destruct (extract_memories_bank u s w) as (added & Hattr & Hu & Ho).
    destruct (decide (user_id = u)) as [->|Hne].
    + rewrite Hu. apply Forall_app. split; [exact (IH u) |].
      eapply Forall_impl; [exact Hattr |]. now intros fact [Hd _].
    + rewrite (Ho _ Hne). exact (IH user_id).
  - unfold facts_of. rewrite search_memories_bank. exact (IH user_id).
  - rewrite get_memory_summary_run.
    destruct (facts_of w u); [exact (IH user_id) |].
    destruct (memory_facts _); exact (IH user_id).
Qed.

(** The comprehension of line 159 raises [KeyError] at the first dict
    without the key, and returns when every dict has it. *)
Lemma memory_facts_key_error (l : list json) :
  Forall (fun fact => is_dict fact = true) l ->
  Exists (fun fact => has_key "fact" fact = false) l ->
  memory_facts l = Raise (KeyError "fact").
Proof.
  induction 1 as [|fact l Hd _ IH]; intros Hex; [inversion Hex |].
  destruct fact as [| | | | | | d]; try discriminate. simpl.
  destruct (dict_get "fact" d) as [x|] eqn:E; [| reflexivity].
  rewrite IH; [reflexivity |].
  inversion Hex as [? ? Hhead | ? ? Htail]; subst; [| exact Htail].
  simpl in Hhead. rewrite E in Hhead. discriminate.
Qed.

Lemma memory_facts_total (l : list json) :
  Forall (fun fact => has_key "fact" fact = true) l ->
  exists facts, memory_facts l = Ret facts.
Proof.
  induction 1 as [|fact l Hk _ [facts IH]]; [now exists [] |].
  destruct fact as [| | | | | | d]; try discriminate. simpl in *.
  destruct (dict_get "fact" d) as [x|]; [| discriminate].
  rewrite IH. now eexists.
Qed.

(** A world reached by a response whose only item has no field. *)
Lemma reachable_without_fact_key :
  let R := rt "[{}]" in
  let w := snd (extract_memories "u1" "s1" one_turn) in
  reachable w /\
  facts_of w "u1"
  = [JObj [("session_id", JStr "s1");
           ("extracted_at", JStr "2025-01-01T00:00:00.000002")]].
Proof.
  intros R w. split; [| vm_compute; reflexivity].
  apply reach_extract.
  change one_turn
    with (snd (add_session_message (R := R) "u1" "s1" "user"
                 "I love pizza and window seats" new_world)).
  apply reach_add, reach_new.
Qed.

(** C10. [extract_memories] stores the parsed dicts without looking at their
    fields, so a reachable world can hold a fact without the key [fact]; in
    every reachable world where a fact of the user lacks that key,
    [get_memory_summary] raises [KeyError] and returns no text; and when
    every fact of the user has the key, it returns a text. *)
Theorem get_memory_summary_key_error :
  (exists (R : Runtime) (w : world) (fact : json),
     reachable w /\ fact ∈ facts_of w "u1" /\
     is_dict fact = true /\ has_key "fact" fact = false) /\
  (forall (R : Runtime) (w : world) (user_id : string),
     reachable w ->
     Exists (fun fact => has_key "fact" fact = false) (facts_of w user_id) ->
     get_memory_summary user_id w = (Raise (KeyError "fact"), w)) /\
  (forall (R : Runtime) (w : world) (user_id : string),
     Forall (fun fact => has_key "fact" fact = true) (facts_of w user_id) ->
     exists text, get_memory_summary user_id w = (Ret text, w)).
Proof.
  split; [| split].
  - pose proof reachable_without_fact_key as H. cbv zeta in H.
    destruct H as [Hreach Hfacts].
    exists (rt "[{}]"),
      (snd (extract_memories (R := rt "[{}]") "u1" "s1" one_turn)),
      (JObj [("session_id", JStr "s1");
             ("extracted_at", JStr "2025-01-01T00:00:00.000002")]).
    split; [exact Hreach |].
    rewrite Hfacts. split; [apply list_elem_of_here |]. split; reflexivity.
  - intros R w user_id Hreach Hex. rewrite get_memory_summary_run.
    destruct (facts_of w user_id) as [|fact l] eqn:E; [inversion Hex |].
    rewrite memory_facts_key_error; [reflexivity | | exact Hex].
    rewrite <- E. now apply reachable_facts_are_dicts.
  - intros R w user_id Hall. rewrite get_memory_summary_run.
    destruct (facts_of w user_id) as [|fact l] eqn:E; [now eexists |].
    destruct (memory_facts_total _ Hall) as [facts ->]. now eexists.
Qed.

Lemma get_memory_summary_key_error_witness :
  let R := rt "[{}]" in
  let w := snd (extract_memories "u1" "s1" one_turn) in
  reachable w /\
  Exists (fun fact => has_key "fact" fact = false) (facts_of w "u1") /\
  get_memory_summary "u1" w = (Raise (KeyError "fact"), w).
Proof.
  intros R w.
  assert (H1 : reachable w) by exact (proj1 reachable_without_fact_key).
  assert (H2 : Exists (fun fact => has_key "fact" fact = false)
                 (facts_of w "u1")).
  { pose proof (proj2 reachable_without_fact_key) as Hfacts.
    cbv zeta in Hfacts. unfold w, R. rewrite Hfacts.
    apply Exists_cons_hd. reflexivity. }
  split; [exact H1 |]. split; [exact H2 |].
  exact (proj1 (proj2 get_memory_summary_key_error) R w "u1" H1 H2).
Defined.

(* ===================================================================== *)
(** ** The loop and the body of the [try] in closed form *)
(* ===================================================================== *)

Section ClosedForms.

Context {R : Runtime}.

Lemma stamp_prefix_length (session_id : string) (items : list json) :
  forall tick,
    length (stamp_prefix session_id tick items) <= length items.
Proof.
  induction items as [|item rest IH]; intros tick; [reflexivity |].
  destruct item; simpl; try lia. specialize (IH (S tick)). lia.
Qed.

Lemma stamp_prefix_all_dicts (session_id : string) (items : list json) :
  forall tick,
    forallb is_dict items = true ->
    length (stamp_prefix session_id tick items) = length items.
Proof.
  induction items as [|item rest IH]; intros tick H; [reflexivity |].
  destruct item; try discriminate. simpl in *. now rewrite IH.
Qed.

(** The items before the first one that is not a dict are the ones
    stamped. *)
Lemma stamp_prefix_stops (session_id : string) (good : list json)
    (bad : json) (rest : list json) :
  forall tick,
    forallb is_dict good = true ->
    is_dict bad = false ->
    stamp_prefix session_id tick (good ++ bad :: rest)
    = stamp_prefix session_id tick good /\
    forallb is_dict (good ++ bad :: rest) = false.
Proof.
  induction good as [|item good IH]; intros tick Hgood Hbad.
  - simpl. rewrite Hbad. split; [| reflexivity]. now destruct bad.
  - destruct item; try discriminate. simpl in *.
    destruct (IH (S tick) Hgood Hbad) as [-> ->]. split; reflexivity.
Qed.

Lemma stamp_prefix_stamps (session_id : string) (items : list json) :
  forall tick,
    Forall2 (stamp_of session_id)
      (take (length (stamp_prefix session_id tick items)) items)
      (stamp_prefix session_id tick items).
Proof.
  induction items as [|item rest IH]; intros tick; [constructor |].
  destruct item as [| | | | | | d]; try constructor.
  - now exists d, (now_isoformat tick).
  - apply IH.
Qed.

(** The loop of lines 103-106, in one equation. *)
Lemma store_memories_closed (user_id session_id : string) (items : list json) :
  forall (w : world) (l : list json),
    memories (bank w) !! user_id = Some l ->
    store_memories user_id session_id items w
    = (if forallb is_dict items
       then Ret (stamp_prefix session_id (clock w) items)
       else Raise TypeError,
       World (Bank (<[user_id := l ++ stamp_prefix session_id (clock w) items]>
                      (memories (bank w)))
                   (sessions (bank w)))
             (clock w + length (stamp_prefix session_id (clock w) items))
             (prompts w) (stdout w)).
Proof.
  induction items as [|memory rest IH]; intros [[m s] c p o] l Hl;
    cbn [bank memories sessions clock prompts stdout] in *.
  - simpl. rewrite app_nil_r, insert_id, Nat.add_0_r by exact Hl. reflexivity.
  - destruct memory as [| b | n | f | str | arr | d];
      try (simpl; rewrite app_nil_r, insert_id, Nat.add_0_r by exact Hl;
           reflexivity).
    set (m2 := stamped_dict session_id (now_isoformat c) d).
    set (w2 := World (Bank (<[user_id := l ++ [m2]]> m) s) (S c) p o).
    assert (Hstep : store_memories user_id session_id (JObj d :: rest)
                      (World (Bank m s) c p o)
                    = match store_memories user_id session_id rest w2 with
                      | (Ret others, w') => (Ret (m2 :: others), w')
                      | (Raise e, w') => (Raise e, w')
                      end).
    { simpl. unfold bind, store_memory, bind, lift, now, append_memory, bind,
        get_memories, put_memories, set_memories, ret. simpl. rewrite Hl.
      reflexivity. }
    rewrite Hstep, (IH w2 (l ++ [m2])) by (simpl; apply lookup_insert_eq).
    cbn [bank memories sessions clock prompts stdout w2 stamp_prefix forallb
         is_dict andb length].
    fold m2. rewrite insert_insert_eq, <- app_assoc, Nat.add_succ_r.
    destruct (forallb is_dict rest); reflexivity.
Qed.

(** The body of the [try] of [extract_memories] when the response parses,
    in one equation. *)
Lemma extract_body_closed (user_id session_id prompt : string) (w : world)
    (parsed : json) :
  parsed_response (length (prompts w)) prompt = Ret parsed ->
  extract_body user_id session_id prompt w
  = match py_iter parsed with
    | Raise e =>
        (Raise e,
         World (Bank (<[user_id := facts_of w user_id]> (memories (bank w)))
                     (sessions (bank w)))
               (clock w) (prompts w ++ [prompt]) (stdout w))
    | Ret items =>
        let stamped := stamp_prefix session_id (clock w) items in
        (if forallb is_dict items
         then Ret (after_loop parsed stamped)
         else Raise TypeError,
         World (Bank (<[user_id := facts_of w user_id ++ stamped]>
                        (memories (bank w)))
                     (sessions (bank w)))
               (clock w + length stamped) (prompts w ++ [prompt]) (stdout w))
    end.
Proof.
  unfold parsed_response. intros H. destruct w as [[m s] c p o].
  cbn [prompts] in H.
  destruct (generate_content (length p) prompt) as [text|e'] eqn:G;
    [| discriminate].
  set (l0 := facts_of (World (Bank m s) c p o) user_id).
  set (w2 := World (Bank (<[user_id := l0]> m) s) c (p ++ [prompt]) o).
  assert (Hbody : extract_body user_id session_id prompt
                    (World (Bank m s) c p o)
    = match py_iter parsed with
      | Raise e => (Raise e, w2)
      | Ret items =>
          match store_memories user_id session_id items w2 with
          | (Ret stamped, w') => (Ret (after_loop parsed stamped), w')
          | (Raise e, w') => (Raise e, w')
          end
      end).
  { unfold extract_body, w2, l0, facts_of, bind, lift, ret, generate,
      in_memories, put_memories, set_memories.
    cbn [fst snd bank memories sessions clock prompts stdout].
    rewrite G. cbn [fst snd]. rewrite H. cbn [fst snd].
    destruct (m !! user_id) as [l|] eqn:E; simpl.
    - rewrite (insert_id _ _ _ E). destruct (py_iter parsed); reflexivity.
    - destruct (py_iter parsed); reflexivity. }
  rewrite Hbody. destruct (py_iter parsed) as [items|e]; [| reflexivity].
  rewrite (store_memories_closed user_id session_id items w2 l0)
    by (simpl; apply lookup_insert_eq).
  cbn [bank memories sessions clock prompts stdout w2]. cbv zeta.
  rewrite insert_insert_eq.
  destruct (forallb is_dict items); reflexivity.
Qed.

(** A session with a turn: the filter of lines 56-59 finds it. *)
Lemma session_messages_elem (session_id : string) (history : list message)
    (msg : message) :
  msg ∈ session_messages session_id history <->
  msg ∈ history /\ msg_session_id msg = session_id.
Proof. unfold session_messages. rewrite list_elem_of_filter. tauto. Qed.

Lemma session_messages_app (session_id : string) (l k : list message) :
  session_messages session_id (l ++ k)
  = session_messages session_id l ++ session_messages session_id k.
Proof. unfold session_messages. apply filter_app. Qed.

End ClosedForms.

(* ===================================================================== *)
(** ** What a call does to the world *)
(* ===================================================================== *)

Section Effects.

Context {R : Runtime}.

Lemma stamped_dict_fields (session_id extracted_at : string)
    (d : list (string * json)) :
  is_dict (stamped_dict session_id extracted_at d) = true /\
  field "session_id" (stamped_dict session_id extracted_at d)
  = Some (JStr session_id) /\
  field "extracted_at" (stamped_dict session_id extracted_at d)
  = Some (JStr extracted_at) /\
  forall key, key <> "session_id" -> key <> "extracted_at" ->
    field key (stamped_dict session_id extracted_at d) = dict_get key d.
Proof.
  unfold stamped_dict. simpl. repeat split.
  - rewrite dict_get_set_ne by discriminate. apply dict_get_set_eq.
  - apply dict_get_set_eq.
  - intros key H1 H2. now rewrite !dict_get_set_ne.
Qed.

Lemma stamp_prefix_stamped (session_id : string) (items : list json) :
  forall tick,
    Forall (fun fact => exists d ts, fact = stamped_dict session_id ts d)
      (stamp_prefix session_id tick items).
Proof.
  induction items as [|item rest IH]; intros tick; [constructor |].
  destruct item as [| | | | | | d]; try constructor; [| apply IH].
  now exists d, (now_isoformat tick).
Qed.

(** [extract_memories] on every path: it appends stamped dicts to the facts
    of the user, reads the clock once for each, and changes nothing else in
    the bank; it touches the [memories] map only when the session has a
    turn. *)
Lemma extract_memories_effect (user_id session_id : string) (w : world) :
  exists added,
    Forall (fun fact => exists d ts, fact = stamped_dict session_id ts d)
      added /\
    sessions (bank (snd (extract_memories user_id session_id w)))
    = sessions (bank w) /\
    clock (snd (extract_memories user_id session_id w))
    = clock w + length added /\
    ((added = [] /\
      memories (bank (snd (extract_memories user_id session_id w)))
      = memories (bank w)) \/
     (session_messages session_id (turns_of w user_id) <> [] /\
      memories (bank (snd (extract_memories user_id session_id w)))
      = <[user_id := facts_of w user_id ++ added]> (memories (bank w)))).
Proof.
  rewrite extract_memories_run.
  destruct (session_messages session_id (turns_of w user_id)) as [|msg msgs]
    eqn:Hmsgs.
  { exists []. rewrite Nat.add_0_r. repeat split; [constructor | now left]. }
  destruct (parsed_response (length (prompts w))
              (extract_prompt_of w user_id session_id)) as [parsed|e] eqn:Hp.
  - rewrite (extract_body_closed _ _ _ _ _ Hp).
    destruct (py_iter parsed) as [items|e].
    + exists (stamp_prefix session_id (clock w) items). cbv zeta.
      split; [apply stamp_prefix_stamped |].
      destruct (forallb is_dict items); cbn [fst snd logged bank clock
        memories sessions]; repeat split; right; split; congruence.
    + exists []. cbn [fst snd logged bank clock memories sessions].
      rewrite app_nil_r, Nat.add_0_r.
      repeat split; [constructor |]. right. split; congruence.
  - rewrite (extract_body_stops _ _ _ _ _ Hp).
    exists []. cbn [fst snd logged prompted bank clock memories sessions].
    rewrite Nat.add_0_r. repeat split; [constructor | now left].
Qed.

(** The facts of every user after [extract_memories]. *)
Lemma extract_memories_facts (user_id session_id : string) (w : world) :
  exists added,
    Forall (fun fact => exists d ts, fact = stamped_dict session_id ts d)
      added /\
    (added <> [] -> session_messages session_id (turns_of w user_id) <> []) /\
    clock (snd (extract_memories user_id session_id w))
    = clock w + length added /\
    facts_of (snd (extract_memories user_id session_id w)) user_id
    = facts_of w user_id ++ added /\
    forall other, other <> user_id ->
      memories (bank (snd (extract_memories user_id session_id w))) !! other
      = memories (bank w) !! other.
Proof.
  destruct (extract_memories_effect user_id session_id w)
    as (added & Hst & _ & Hclock & [[-> Hm] | [Hmsgs Hm]]).
  - exists []. rewrite app_nil_r. unfold facts_of. rewrite Hm.
    repeat split; try assumption; congruence.
  - exists added. unfold facts_of at 1. rewrite Hm, lookup_insert_eq.
    split; [exact Hst |]. split; [intros _; exact Hmsgs |].
    split; [exact Hclock |]. split; [reflexivity |].
    intros other Hne. now rewrite lookup_insert_ne.
Qed.

(** [search_memories] takes no clock reading. *)
Lemma search_memories_clock (user_id query : string) (w : world) :
  clock (snd (search_memories user_id query w)) = clock w.
Proof.
  rewrite search_memories_run. destruct (facts_of w user_id); [reflexivity |].
  cbv zeta. destruct (parsed_response _ _); reflexivity.
Qed.

(** [get_memory_summary] leaves the world as it is, also when it raises. *)
Lemma get_memory_summary_world (user_id : string) (w : world) :
  snd (get_memory_summary user_id w) = w.
Proof.
  rewrite get_memory_summary_run. destruct (facts_of w user_id);
    [reflexivity |].
  destruct (memory_facts _); reflexivity.
Qed.

Lemma turns_of_after_add (user_id session_id role content : string)
    (w : world) (other : string) :
  turns_of (snd (add_session_message user_id session_id role content w)) other
  = if decide (other = user_id)
    then turns_of w user_id
         ++ [Message session_id role content (now_isoformat (clock w))]
    else turns_of w other.
Proof.
  rewrite add_session_message_run. unfold turns_of at 1.
  cbn [snd bank sessions]. destruct (decide (other = user_id)) as [->|Hne].
  - now rewrite lookup_insert_eq.
  - now rewrite lookup_insert_ne.
Qed.

End Effects.

(* ===================================================================== *)
(** ** Further properties of extract_memories *)
(* ===================================================================== *)

Section ExtractShapes.

Context {R : Runtime}.

Lemma forallb_is_dict (items : list json) :
  Forall (fun item => is_dict item = true) items ->
  forallb is_dict items = true.
Proof. induction 1 as [|item l H _ IH]; simpl; [reflexivity |]. now rewrite H. Qed.

(** [extract_memories] when the session has a turn and the response
    parses, in one equation. *)
Lemma extract_memories_parsed (user_id session_id : string) (w : world)
    (parsed : json) :
  session_messages session_id (turns_of w user_id) <> [] ->
  parsed_response (length (prompts w))
    (extract_prompt_of w user_id session_id) = Ret parsed ->
  extract_memories user_id session_id w
  = match extract_body user_id session_id
            (extract_prompt_of w user_id session_id) w with
    | (Ret v, w') => (Ret v, w')
    | (Raise e, w') =>
        (Ret (JArr []), logged "Error extracting memories: " e w')
    end.
Proof.
  intros Hmsgs _. rewrite extract_memories_run.
  destruct (session_messages session_id (turns_of w user_id));
    [congruence | reflexivity].
Qed.

End ExtractShapes.

(** X5. When the session has a turn and the response parses to a list whose
    N items are all dicts, [extract_memories] returns the list of the N
    stamped dicts, appends exactly these to the facts of the user, reads the
    clock N times and prints nothing. *)
Theorem extract_memories_list_of_dicts `{R : Runtime}
    (user_id session_id : string) (w : world) (items : list json) :
  session_messages session_id (turns_of w user_id) <> [] ->
  parsed_response (length (prompts w))
    (extract_prompt_of w user_id session_id) = Ret (JArr items) ->
  Forall (fun item => is_dict item = true) items ->
  exists stored,
    Forall2 (stamp_of session_id) items stored /\
    fst (extract_memories user_id session_id w) = Ret (JArr stored) /\
    facts_of (snd (extract_memories user_id session_id w)) user_id
    = facts_of w user_id ++ stored /\
    clock (snd (extract_memories user_id session_id w))
    = clock w + length items /\
    stdout (snd (extract_memories user_id session_id w)) = stdout w.
Proof.
  intros Hmsgs Hp Hitems.
  rewrite (extract_memories_parsed _ _ _ _ Hmsgs Hp).
  rewrite (extract_body_closed _ _ _ _ _ Hp). cbn [py_iter]. cbv zeta.
  pose proof (forallb_is_dict _ Hitems) as Hall. rewrite Hall.
  pose proof (stamp_prefix_all_dicts session_id items (clock w) Hall) as Hlen.
  pose proof (stamp_prefix_stamps session_id items (clock w)) as Hst.
  rewrite Hlen, firstn_all in Hst.
  exists (stamp_prefix session_id (clock w) items).
  cbn [fst snd after_loop clock stdout]. rewrite Hlen.
  repeat split; try assumption.
  apply facts_of_lookup. cbn [bank memories]. apply lookup_insert_eq.
Qed.

Lemma extract_memories_list_of_dicts_witness :
  let R := rt "[{'fact': 'loves pizza'}, {'fact': 'window seats'}]" in
  let items := [JObj [("fact", JStr "loves pizza")];
                JObj [("fact", JStr "window seats")]] in
  session_messages "s1" (turns_of one_turn "u1") <> [] /\
  parsed_response (length (prompts one_turn))
    (extract_prompt_of one_turn "u1" "s1") = Ret (JArr items) /\
  Forall (fun item => is_dict item = true) items /\
  exists stored,
    Forall2 (stamp_of "s1") items stored /\
    fst (extract_memories "u1" "s1" one_turn) = Ret (JArr stored) /\
    facts_of (snd (extract_memories "u1" "s1" one_turn)) "u1"
    = facts_of one_turn "u1" ++ stored /\
    clock (snd (extract_memories "u1" "s1" one_turn))
    = clock one_turn + length items /\
    stdout (snd (extract_memories "u1" "s1" one_turn)) = stdout one_turn.
Proof.
  intros R items.
  assert (H1 : session_messages "s1" (turns_of one_turn "u1") <> [])
    by (vm_compute; discriminate).
  assert (H2 : parsed_response (length (prompts one_turn))
                 (extract_prompt_of one_turn "u1" "s1") = Ret (JArr items))
    by (vm_compute; reflexivity).
  assert (H3 : Forall (fun item => is_dict item = true) items)
    by (repeat constructor).
  split; [exact H1 |]. split; [exact H2 |]. split; [exact H3 |].
  exact (extract_memories_list_of_dicts "u1" "s1" one_turn items H1 H2 H3).
Defined.

(** X6. When the response parses to a list whose first item that is not a
    dict comes after K dicts, [extract_memories] prints a [TypeError],
    returns the empty list, and exactly the K dicts before that item, stamped,
    have been appended to the facts of the user; the items after it are not
    looked at. *)
Theorem extract_memories_stops_at_non_dict `{R : Runtime}
    (user_id session_id : string) (w : world) (good : list json) (bad : json)
    (rest : list json) :
  session_messages session_id (turns_of w user_id) <> [] ->
  parsed_response (length (prompts w))
    (extract_prompt_of w user_id session_id)
  = Ret (JArr (good ++ bad :: rest)) ->
  Forall (fun item => is_dict item = true) good ->
  is_dict bad = false ->
  exists stored,
    Forall2 (stamp_of session_id) good stored /\
    fst (extract_memories user_id session_id w) = Ret (JArr []) /\
    facts_of (snd (extract_memories user_id session_id w)) user_id
    = facts_of w user_id ++ stored /\
    stdout (snd (extract_memories user_id session_id w))
    = stdout w ++ [("Error extracting memories: ", TypeError)].
Proof.
  intros Hmsgs Hp Hgood Hbad.
  rewrite (extract_memories_parsed _ _ _ _ Hmsgs Hp).
  rewrite (extract_body_closed _ _ _ _ _ Hp). cbn [py_iter]. cbv zeta.
  pose proof (forallb_is_dict _ Hgood) as Hall.
  destruct (stamp_prefix_stops session_id good bad rest (clock w) Hall Hbad)
    as [-> ->].
  pose proof (stamp_prefix_all_dicts session_id good (clock w) Hall) as Hlen.
  pose proof (stamp_prefix_stamps session_id good (clock w)) as Hst.
  rewrite Hlen, firstn_all in Hst.
  exists (stamp_prefix session_id (clock w) good).
  cbn [fst snd logged bank stdout]. repeat split; try assumption.
  apply facts_of_lookup. cbn [bank memories]. apply lookup_insert_eq.
Qed.

Lemma extract_memories_stops_at_non_dict_witness :
  let R := rt "[{'fact': 'loves pizza'}, 'window seats', {'fact': 'mornings'}]" in
  let good := [JObj [("fact", JStr "loves pizza")]] in
  let bad := JStr "window seats" in
  let rest := [JObj [("fact", JStr "mornings")]] in
  session_messages "s1" (turns_of one_turn "u1") <> [] /\
  parsed_response (length (prompts one_turn))
    (extract_prompt_of one_turn "u1" "s1") = Ret (JArr (good ++ bad :: rest)) /\
  Forall (fun item => is_dict item = true) good /\
  is_dict bad = false /\
  exists stored,
    Forall2 (stamp_of "s1") good stored /\
    fst (extract_memories "u1" "s1" one_turn) = Ret (JArr []) /\
    facts_of (snd (extract_memories "u1" "s1" one_turn)) "u1"
    = facts_of one_turn "u1" ++ stored /\
    stdout (snd (extract_memories "u1" "s1" one_turn))
    = stdout one_turn ++ [("Error extracting memories: ", TypeError)].
Proof.
  intros R good bad rest.
  assert (H1 : session_messages "s1" (turns_of one_turn "u1") <> [])
    by (vm_compute; discriminate).
  assert (H2 : parsed_response (length (prompts one_turn))
                 (extract_prompt_of one_turn "u1" "s1")
               = Ret (JArr (good ++ bad :: rest)))
    by (vm_compute; reflexivity).
  assert (H3 : Forall (fun item => is_dict item = true) good)
    by (repeat constructor).
  assert (H4 : is_dict bad = false) by reflexivity.
  split; [exact H1 |]. split; [exact H2 |]. split; [exact H3 |].
  split; [exact H4 |].
  exact (extract_memories_stops_at_non_dict "u1" "s1" one_turn good bad rest
           H1 H2 H3 H4).
Defined.

(** X7. When the response parses to something that is not a list, and is
    neither the empty dict nor the empty str, [extract_memories] prints a
    [TypeError] and returns the empty list; no fact is stored, but the user
    now has a fact list in [memories]. *)
Theorem extract_memories_not_a_list `{R : Runtime}
    (user_id session_id : string) (w : world) (parsed : json) :
  session_messages session_id (turns_of w user_id) <> [] ->
  parsed_response (length (prompts w))
    (extract_prompt_of w user_id session_id) = Ret parsed ->
  is_list parsed = false ->
  parsed <> JObj [] ->
  parsed <> JStr EmptyString ->
  fst (extract_memories user_id session_id w) = Ret (JArr []) /\
  stdout (snd (extract_memories user_id session_id w))
  = stdout w ++ [("Error extracting memories: ", TypeError)] /\
  memories (bank (snd (extract_memories user_id session_id w)))
  = <[user_id := facts_of w user_id]> (memories (bank w)) /\
  facts_of (snd (extract_memories user_id session_id w)) user_id
  = facts_of w user_id.
Proof.
  intros Hmsgs Hp Hlist Hobj Hstr.
  rewrite (extract_memories_parsed _ _ _ _ Hmsgs Hp).
  rewrite (extract_body_closed _ _ _ _ _ Hp).
  destruct parsed as [| b | n | f | [|c str] | arr | [|[key v] d]];
    try discriminate; try congruence;
    cbn [py_iter map list_ascii_of_string stamp_prefix forallb is_dict andb
         length fst snd logged bank memories stdout facts_of];
    cbv zeta; cbn [fst snd logged bank memories stdout];
    rewrite ?app_nil_r; repeat split;
    apply facts_of_lookup; cbn [logged bank memories]; apply lookup_insert_eq.
Qed.

Lemma extract_memories_not_a_list_witness :
  let R := rt "{'fact': 'loves pizza'}" in
  let parsed := JObj [("fact", JStr "loves pizza")] in
  let after := snd (extract_memories "u1" "s1" one_turn) in
  session_messages "s1" (turns_of one_turn "u1") <> [] /\
  parsed_response (length (prompts one_turn))
    (extract_prompt_of one_turn "u1" "s1") = Ret parsed /\
  is_list parsed = false /\
  parsed <> JObj [] /\
  parsed <> JStr EmptyString /\
  fst (extract_memories "u1" "s1" one_turn) = Ret (JArr []) /\
  stdout after
  = stdout one_turn ++ [("Error extracting memories: ", TypeError)] /\
  memories (bank after)
  = <["u1" := facts_of one_turn "u1"]> (memories (bank one_turn)) /\
  facts_of after "u1" = facts_of one_turn "u1".
Proof.
  intros R parsed after.
  assert (H1 : session_messages "s1" (turns_of one_turn "u1") <> [])
    by (vm_compute; discriminate).
  assert (H2 : parsed_response (length (prompts one_turn))
                 (extract_prompt_of one_turn "u1" "s1") = Ret parsed)
    by (vm_compute; reflexivity).
  assert (H3 : is_list parsed = false) by reflexivity.
  assert (H4 : parsed <> JObj []) by discriminate.
  assert (H5 : parsed <> JStr EmptyString) by discriminate.
  split; [exact H1 |]. split; [exact H2 |]. split; [exact H3 |].
  split; [exact H4 |]. split; [exact H5 |].
  exact (extract_memories_not_a_list "u1" "s1" one_turn parsed
           H1 H2 H3 H4 H5).
Defined.

Lemma stamp_of_keeps_fields (session_id : string) (item fact : json) :
  stamp_of session_id item fact ->
  forall key, key <> "session_id" -> key <> "extracted_at" ->
    field key fact = field key item.
Proof.
  intros (d & ts & -> & ->) key H1 H2.
  exact (proj2 (proj2 (proj2 (stamped_dict_fields session_id ts d))) key H1 H2).
Qed.

(** X8. When the session has a turn and the response parses to a list of
    dicts, every returned fact has, under every key other than [session_id]
    and [extracted_at], what the parsed item has there: the [fact],
    [context] and [importance] of the response are stored as they came. *)
Theorem extract_memories_keeps_fields `{R : Runtime}
    (user_id session_id : string) (w : world) (items : list json) :
  session_messages session_id (turns_of w user_id) <> [] ->
  parsed_response (length (prompts w))
    (extract_prompt_of w user_id session_id) = Ret (JArr items) ->
  Forall (fun item => is_dict item = true) items ->
  exists stored,
    fst (extract_memories user_id session_id w) = Ret (JArr stored) /\
    Forall2 (fun item fact =>
               forall key, key <> "session_id" -> key <> "extracted_at" ->
                 field key fact = field key item)
      items stored.
Proof.
  intros Hmsgs Hp Hitems.
  rewrite (extract_memories_parsed _ _ _ _ Hmsgs Hp).
  rewrite (extract_body_closed _ _ _ _ _ Hp). cbn [py_iter]. cbv zeta.
  pose proof (forallb_is_dict _ Hitems) as Hall. rewrite Hall.
  pose proof (stamp_prefix_all_dicts session_id items (clock w) Hall) as Hlen.
  pose proof (stamp_prefix_stamps session_id items (clock w)) as Hst.
  rewrite Hlen, firstn_all in Hst.
  exists (stamp_prefix session_id (clock w) items).
  split; [reflexivity |].
  eapply Forall2_impl; [exact Hst |]. apply stamp_of_keeps_fields.
Qed.

Lemma extract_memories_keeps_fields_witness :
  let R := rt "[{'fact': 'loves pizza', 'context': 'said so', 'importance': 7}]" in
  let items := [JObj [("fact", JStr "loves pizza"); ("context", JStr "said so");
                      ("importance", JInt 7)]] in
  session_messages "s1" (turns_of one_turn "u1") <> [] /\
  parsed_response (length (prompts one_turn))
    (extract_prompt_of one_turn "u1" "s1") = Ret (JArr items) /\
  Forall (fun item => is_dict item = true) items /\
  exists stored,
    fst (extract_memories "u1" "s1" one_turn) = Ret (JArr stored) /\
    Forall2 (fun item fact =>
               forall key, key <> "session_id" -> key <> "extracted_at" ->
                 field key fact = field key item)
      items stored.
Proof.
  intros R items.
  assert (H1 : session_messages "s1" (turns_of one_turn "u1") <> [])
    by (vm_compute; discriminate).
  assert (H2 : parsed_response (length (prompts one_turn))
                 (extract_prompt_of one_turn "u1" "s1") = Ret (JArr items))
    by (vm_compute; reflexivity).
  assert (H3 : Forall (fun item => is_dict item = true) items)
    by (repeat constructor).
  split; [exact H1 |]. split; [exact H2 |]. split; [exact H3 |].
  exact (extract_memories_keeps_fields "u1" "s1" one_turn items H1 H2 H3).
Defined.

(* ===================================================================== *)
(** ** Empty stores and the summary text *)
(* ===================================================================== *)

(** X1. For a user without stored fact, whether [memories] has no entry for
    the user or an empty list, [get_memory_summary] returns the fixed
    sentence and changes nothing. *)
Theorem get_memory_summary_no_memories `{R : Runtime} (user_id : string)
    (w : world) :
  facts_of w user_id = [] ->
  get_memory_summary user_id w
  = (Ret "No memories found for this user.", w).
Proof. intros H. now rewrite get_memory_summary_run, H. Qed.

Lemma get_memory_summary_no_memories_witness :
  let R := rt "[]" in
  let emptied := snd (extract_memories "u1" "s1" one_turn) in
  (facts_of new_world "new_user" = [] /\
   get_memory_summary "new_user" new_world
   = (Ret "No memories found for this user.", new_world)) /\
  (memories (bank emptied) !! "u1" = Some [] /\
   facts_of emptied "u1" = [] /\
   get_memory_summary "u1" emptied
   = (Ret "No memories found for this user.", emptied)).
Proof.
  intros R emptied.
  assert (H1 : facts_of new_world "new_user" = []) by reflexivity.
  assert (H2 : facts_of emptied "u1" = []) by (vm_compute; reflexivity).
  split; [split; [exact H1 |] | split; [| split; [exact H2 |]]].
  - exact (get_memory_summary_no_memories "new_user" new_world H1).
  - vm_compute. reflexivity.
  - exact (get_memory_summary_no_memories "u1" emptied H2).
Defined.

(** X4. For a user without stored fact, [search_memories] returns the empty
    list whatever the query, and the world is as before: no prompt is sent
    to the generation call. *)
Theorem search_memories_no_facts `{R : Runtime} (user_id query : string)
    (w : world) :
  facts_of w user_id = [] ->
  search_memories user_id query w = (Ret (JArr []), w).
Proof. intros H. now rewrite search_memories_run, H. Qed.

Lemma search_memories_no_facts_witness :
  let R := rt "[1, 2, 3]" in
  facts_of one_turn "u1" = [] /\
  search_memories "u1" "food" one_turn = (Ret (JArr []), one_turn).
Proof.
  intros R.
  assert (H : facts_of one_turn "u1" = []) by (vm_compute; reflexivity).
  split; [exact H |].
  exact (search_memories_no_facts "u1" "food" one_turn H).
Defined.

Lemma memory_facts_texts (facts : list json) (texts : list string) :
  Forall2 (fun fact text => field "fact" fact = Some (JStr text)) facts texts ->
  memory_facts facts = Ret (map JStr texts).
Proof.
  induction 1 as [|fact text facts texts H _ IH]; [reflexivity |].
  destruct fact as [| | | | | | d]; try discriminate. simpl in *.
  now rewrite H, IH.
Qed.

(** X3. When the user has N > 0 stored facts and each has a str under
    [fact], [get_memory_summary] returns the line [User has N stored
    memories:] followed by one line [- text] for each fact, in the order the
    facts were stored, and changes nothing. *)
Theorem get_memory_summary_text `{R : Runtime} (user_id : string) (w : world)
    (texts : list string) :
  facts_of w user_id <> [] ->
  Forall2 (fun fact text => field "fact" fact = Some (JStr text))
    (facts_of w user_id) texts ->
  get_memory_summary user_id w
  = (Ret ("User has " +:+ Text.decimal (length texts)
          +:+ " stored memories:" +:+ Text.nl
          +:+ Text.join Text.nl (map (fun text => "- " +:+ text) texts)), w).
Proof.
  intros Hne Hall. rewrite get_memory_summary_run.
  rewrite (memory_facts_texts _ _ Hall), (Forall2_length _ _ _ Hall), map_map.
  destruct (facts_of w user_id); [congruence | reflexivity].
Qed.

Lemma get_memory_summary_text_witness :
  let R := rt "" in
  facts_of one_fact "u1" <> [] /\
  Forall2 (fun fact text => field "fact" fact = Some (JStr text))
    (facts_of one_fact "u1") ["loves pizza"] /\
  get_memory_summary "u1" one_fact
  = (Ret ("User has 1 stored memories:" +:+ Text.nl +:+ "- loves pizza"),
     one_fact).
Proof.
  intros R.
  assert (H1 : facts_of one_fact "u1" <> [])
    by (rewrite facts_of_one_fact; discriminate).
  assert (H2 : Forall2 (fun fact text => field "fact" fact = Some (JStr text))
                 (facts_of one_fact "u1") ["loves pizza"])
    by (rewrite facts_of_one_fact; repeat constructor).
  split; [exact H1 |]. split; [exact H2 |].
  exact (get_memory_summary_text "u1" one_fact ["loves pizza"] H1 H2).
Defined.

Lemma memory_facts_outcome (l : list json) :
  Forall (fun fact => is_dict fact = true) l ->
  (exists facts, memory_facts l = Ret facts) \/
  memory_facts l = Raise (KeyError "fact").
Proof.
  induction 1 as [|fact l Hd _ IH]; [left; now exists [] |].
  destruct fact as [| | | | | | d]; try discriminate. simpl.
  destruct (dict_get "fact" d); [| now right].
  destruct IH as [[facts ->] | ->]; [left; now eexists | now right].
Qed.

(** X2. [get_memory_summary] never changes the world, also when it raises;
    and in a world reached by calls of the four methods it either returns a
    text or raises [KeyError] for the key [fact], never another
    exception. *)
Theorem get_memory_summary_outcome `{R : Runtime} (user_id : string)
    (w : world) :
  snd (get_memory_summary user_id w) = w /\
  (reachable w ->
   (exists text, fst (get_memory_summary user_id w) = Ret text) \/
   fst (get_memory_summary user_id w) = Raise (KeyError "fact")).
Proof.
  split; [apply get_memory_summary_world |].
  intros Hreach. rewrite get_memory_summary_run.
  pose proof (reachable_facts_are_dicts w Hreach user_id) as Hd.
  destruct (facts_of w user_id) as [|fact l]; [left; now eexists |].
  destruct (memory_facts_outcome _ Hd) as [[facts ->] | ->];
    [left; now eexists | now right].
Qed.

Lemma get_memory_summary_outcome_witness :
  let R := rt "[{}]" in
  let w := snd (extract_memories "u1" "s1" one_turn) in
  reachable w /\
  snd (get_memory_summary "u1" w) = w /\
  ((exists text, fst (get_memory_summary "u1" w) = Ret text) \/
   fst (get_memory_summary "u1" w) = Raise (KeyError "fact")).
Proof.
  intros R w.
  assert (H : reachable w) by exact (proj1 reachable_without_fact_key).
  split; [exact H |]. split.
  - exact (proj1 (get_memory_summary_outcome "u1" w)).
  - exact (proj2 (get_memory_summary_outcome "u1" w) H).
Defined.

(* ===================================================================== *)
(** ** Properties of every call *)
(* ===================================================================== *)

Section EveryCall.

Context {R : Runtime}.

(** The turn lists and fact lists of the bank after a call. *)
Lemma after_call_lists (c : call) (w : world) :
  exists new_turns new_facts,
    (forall user_id,
       sessions (bank (after_call c w)) !! user_id
       = if decide (user_id = call_user c)
         then match new_turns with
              | [] => sessions (bank w) !! user_id
              | _ => Some (turns_of w user_id ++ new_turns)
              end
         else sessions (bank w) !! user_id) /\
    (forall user_id,
       user_id <> call_user c ->
       memories (bank (after_call c w)) !! user_id
       = memories (bank w) !! user_id) /\
    facts_of (after_call c w) (call_user c)
    = facts_of w (call_user c) ++ new_facts.
Proof.
  destruct c as [u s r c | u s | u q | u]; cbn [after_call call_user].
  - exists [Message s r c (now_isoformat (clock w))], [].
    rewrite add_session_message_run. cbn [snd bank sessions memories].
    rewrite app_nil_r. repeat split.
    intros user_id. destruct (decide (user_id = u)) as [->|Hne].
    + apply lookup_insert_eq.
    + now apply lookup_insert_ne.
  - destruct (extract_memories_effect u s w) as (added & _ & Hs & _ & _).
    destruct (extract_memories_facts u s w) as (added' & _ & _ & _ & Hf & Ho).
    exists [], added'. rewrite Hs. repeat split; try assumption.
    intros user_id. now destruct (decide _).
  - exists [], []. rewrite search_memories_bank, app_nil_r. repeat split.
    + intros user_id. now destruct (decide _).
    + unfold facts_of. now rewrite search_memories_bank.
  - exists [], []. rewrite get_memory_summary_world, app_nil_r. repeat split.
    intros user_id. now destruct (decide _).
Qed.

Lemma turns_of_after_call (c : call) (w : world) (user_id : string) :
  exists new_turns,
    turns_of (after_call c w) user_id = turns_of w user_id ++ new_turns.
Proof.
  destruct (after_call_lists c w) as (new_turns & _ & Hs & _).
  unfold turns_of at 1. rewrite Hs.
  destruct (decide _); [| exists []; now rewrite app_nil_r].
  destruct new_turns; [exists []; now rewrite app_nil_r | now eexists].
Qed.

Lemma well_attributed_turns (w w' : world) (user_id : string) (fact : json) :
  (exists new_turns, turns_of w' user_id = turns_of w user_id ++ new_turns) ->
  well_attributed w user_id fact -> well_attributed w' user_id fact.
Proof.
  intros [k Hk] (sid & ts & msg & Hd & Hs & Ht & Hin & Hmsg).
  exists sid, ts, msg. rewrite Hk. repeat split; try assumption.
  apply elem_of_app. now left.
Qed.

(** Every call keeps the invariant of the bank. *)
Lemma bank_invariant_after_call (c : call) (w : world) :
  bank_invariant w -> bank_invariant (after_call c w).
Proof.
  intros (Hkeys & Hne & Hfacts).
  assert (Hold : forall user_id,
            Forall (well_attributed (after_call c w) user_id)
              (facts_of w user_id)).
  { intros user_id. eapply Forall_impl; [apply Hfacts |].
    intros fact. apply well_attributed_turns, turns_of_after_call. }
  destruct c as [u s r c | u s | u q | u]; cbn [after_call] in *.
  - rewrite add_session_message_run in *. cbn [snd] in *.
    split; [| split]; cbn [bank sessions memories].
    + intros user_id Hm. destruct (decide (user_id = u)) as [->|Hneq].
      * rewrite lookup_insert_eq. now eexists.
      * rewrite lookup_insert_ne by congruence. now apply Hkeys.
    + intros user_id. destruct (decide (user_id = u)) as [->|Hneq].
      * rewrite lookup_insert_eq. intros [=H]. now apply app_eq_nil in H.
      * rewrite lookup_insert_ne by congruence. apply Hne.
    + intros user_id. exact (Hold user_id).
  - destruct (extract_memories_effect u s w)
      as (added & Hst & Hs & _ & [[-> Hm] | [Hmsgs Hm]]).
    + split; [| split].
      * intros user_id. rewrite Hm, Hs. apply Hkeys.
      * intros user_id. rewrite Hs. apply Hne.
      * intros user_id. unfold facts_of at 1. rewrite Hm. exact (Hold user_id).
    + assert (Hturn : exists msg, msg ∈ turns_of w u /\ msg_session_id msg = s).
      { destruct (session_messages s (turns_of w u)) as [|msg l] eqn:E;
          [congruence |].
        exists msg. apply session_messages_elem. rewrite E. apply elem_of_cons.
        now left. }
      split; [| split].
      * intros user_id. rewrite Hm, Hs.
        destruct (decide (user_id = u)) as [->|Hneq].
        -- intros _. destruct Hturn as (msg & Hin & _). unfold turns_of in Hin.
           destruct (sessions (bank w) !! u); [now eexists |].
           now apply elem_of_nil in Hin.
        -- rewrite lookup_insert_ne by congruence. apply Hkeys.
      * intros user_id. rewrite Hs. apply Hne.
      * intros user_id. unfold facts_of at 1. rewrite Hm.
        destruct (decide (user_id = u)) as [->|Hneq].
        -- rewrite lookup_insert_eq. cbn [default]. apply Forall_app. split;
             [exact (Hold u) |].
           eapply Forall_impl; [exact Hst |]. intros fact (d & ts & ->).
           destruct Hturn as (msg & Hin & Hmsg).
           destruct (stamped_dict_fields s ts d) as (H1 & H2 & H3 & _).
           exists s, ts, msg. repeat split; try assumption.
           unfold turns_of. now rewrite Hs.
        -- rewrite lookup_insert_ne by congruence. exact (Hold user_id).
  - split; [| split]; intros user_id.
    + rewrite search_memories_bank. apply Hkeys.
    + rewrite search_memories_bank. apply Hne.
    + specialize (Hold user_id). unfold facts_of at 1.
      now rewrite search_memories_bank.
  - rewrite get_memory_summary_world. now repeat split.
Qed.

Lemma bank_invariant_new : bank_invariant new_world.
Proof.
  split; [| split]; intros user_id; unfold facts_of; simpl.
  - rewrite lookup_empty. now intros [x H].
  - now rewrite lookup_empty.
  - rewrite lookup_empty. constructor.
Qed.

Lemma reachable_invariant (w : world) : reachable w -> bank_invariant w.
Proof.
  induction 1 as [| w u s r c _ IH | w u s _ IH | w u q _ IH | w u _ IH].
  - apply bank_invariant_new.
  - exact (bank_invariant_after_call (AddSessionMessage u s r c) w IH).
  - exact (bank_invariant_after_call (ExtractMemories u s) w IH).
  - exact (bank_invariant_after_call (SearchMemories u q) w IH).
  - exact (bank_invariant_after_call (GetMemorySummary u) w IH).
Qed.

End EveryCall.

(** X9. No call evicts anything: after any call of the four methods, on any
    path, the turns a user had are still there, in order, at the head of the
    user's turn list, and likewise the facts. *)
Theorem calls_never_evict `{R : Runtime} (c : call) (w : world)
    (user_id : string) :
  (exists new_turns,
     turns_of (after_call c w) user_id = turns_of w user_id ++ new_turns) /\
  (exists new_facts,
     facts_of (after_call c w) user_id = facts_of w user_id ++ new_facts).
Proof.
  split; [apply turns_of_after_call |].
  destruct (after_call_lists c w) as (_ & new_facts & _ & Ho & Hf).
  destruct (decide (user_id = call_user c)) as [->|Hne];
    [exists new_facts; exact Hf |].
  exists []. unfold facts_of. now rewrite (Ho _ Hne), app_nil_r.
Qed.

(** X10. A call is about one user: the entries of every other user in
    [sessions] and in [memories] are the same after the call. *)
Theorem calls_touch_one_user `{R : Runtime} (c : call) (w : world)
    (user_id : string) :
  user_id <> call_user c ->
  sessions (bank (after_call c w)) !! user_id = sessions (bank w) !! user_id /\
  memories (bank (after_call c w)) !! user_id = memories (bank w) !! user_id.
Proof.
  intros Hne. destruct (after_call_lists c w) as (k & _ & Hs & Ho & _).
  split; [| exact (Ho _ Hne)].
  rewrite Hs. destruct (decide _); [contradiction | reflexivity].
Qed.

Lemma calls_touch_one_user_witness :
  let R := rt "[{'fact': 'likes tea'}]" in
  let c := ExtractMemories "u2" "s1" in
  let w := snd (add_session_message "u2" "s1" "user" "I like tea" one_fact) in
  "u1" <> call_user c /\
  facts_of (after_call c w) "u2" <> facts_of w "u2" /\
  sessions (bank (after_call c w)) !! "u1" = sessions (bank w) !! "u1" /\
  memories (bank (after_call c w)) !! "u1" = memories (bank w) !! "u1".
Proof.
  intros R c w.
  assert (H : "u1" <> call_user c) by discriminate.
  split; [exact H |]. split; [vm_compute; discriminate |].
  exact (calls_touch_one_user c w "u1" H).
Defined.

(** X11. In every world reached from a new bank by calls of the four
    methods: a user with a fact list has a turn list, no turn list is empty,
    and every stored fact is a dict with a str under [extracted_at] and,
    under [session_id], the id of a session in which that user has a turn. *)
Theorem reachable_bank_invariant `{R : Runtime} (w : world) :
  reachable w ->
  (forall user_id,
     is_Some (memories (bank w) !! user_id) ->
     is_Some (sessions (bank w) !! user_id)) /\
  (forall user_id, sessions (bank w) !! user_id <> Some []) /\
  (forall user_id fact,
     fact ∈ facts_of w user_id ->
     exists session_id extracted_at msg,
       is_dict fact = true /\
       field "session_id" fact = Some (JStr session_id) /\
       field "extracted_at" fact = Some (JStr extracted_at) /\
       msg ∈ turns_of w user_id /\
       msg_session_id msg = session_id).
Proof.
  intros Hreach. destruct (reachable_invariant w Hreach) as (H1 & H2 & H3).
  split; [exact H1 |]. split; [exact H2 |].
  intros user_id fact Hin.
  exact (proj1 (Forall_forall _ _) (H3 user_id) fact Hin).
Qed.

Lemma reachable_bank_invariant_witness :
  let R := rt "[{'session_id': 'elsewhere'}]" in
  let w := snd (extract_memories "u1" "s1" one_turn) in
  reachable w /\
  facts_of w "u1"
  = [JObj [("session_id", JStr "s1");
           ("extracted_at", JStr "2025-01-01T00:00:00.000002")]] /\
  (forall user_id,
     is_Some (memories (bank w) !! user_id) ->
     is_Some (sessions (bank w) !! user_id)) /\
  (forall user_id, sessions (bank w) !! user_id <> Some []) /\
  (forall user_id fact,
     fact ∈ facts_of w user_id ->
     exists session_id extracted_at msg,
       is_dict fact = true /\
       field "session_id" fact = Some (JStr session_id) /\
       field "extracted_at" fact = Some (JStr extracted_at) /\
       msg ∈ turns_of w user_id /\
       msg_session_id msg = session_id).
Proof.
  intros R w.
  assert (H : reachable w).
  { apply reach_extract.
    change one_turn
      with (snd (add_session_message (R := R) "u1" "s1" "user"
                   "I love pizza and window seats" new_world)).
    apply reach_add, reach_new. }
  split; [exact H |]. split; [vm_compute; reflexivity |].
  exact (reachable_bank_invariant w H).
Defined.

(** X12. The generation call is made by [extract_memories] exactly once when
    the session has a turn, with the extraction prompt over the transcript of
    that session, and by [search_memories] exactly once when the user has a
    fact, with the search prompt over the query and all the facts of the
    user; otherwise it is not made, and [add_session_message] and
    [get_memory_summary] never make it. *)
Theorem calls_generation_prompts `{R : Runtime} (c : call) (w : world) :
  prompts (after_call c w)
  = prompts w
    ++ match c with
       | AddSessionMessage _ _ _ _ => []
       | GetMemorySummary _ => []
       | ExtractMemories user_id session_id =>
           match session_messages session_id (turns_of w user_id) with
           | [] => []
           | msgs => [extraction_prompt (conversation msgs)]
           end
       | SearchMemories user_id query =>
           match facts_of w user_id with
           | [] => []
           | user_memories => [search_prompt query user_memories]
           end
       end.
Proof.
  destruct c as [u s r c | u s | u q | u]; cbn [after_call].
  - rewrite add_session_message_run. cbn [snd prompts]. now rewrite app_nil_r.
  - rewrite extract_memories_run. unfold extract_prompt_of.
    destruct (session_messages s (turns_of w u)) as [|msg msgs];
      [now rewrite app_nil_r |].
    destruct (parsed_response (length (prompts w))
                (extraction_prompt (conversation (msg :: msgs))))
      as [parsed|e] eqn:Hp.
    + rewrite (extract_body_closed _ _ _ _ _ Hp).
      destruct (py_iter parsed) as [items|e]; [| reflexivity].
      cbv zeta. destruct (forallb is_dict items); reflexivity.
    + now rewrite (extract_body_stops _ _ _ _ _ Hp).
  - rewrite search_memories_run. unfold search_prompt_of.
    destruct (facts_of w u) as [|fact l]; [now rewrite app_nil_r |].
    cbv zeta. destruct (parsed_response _ _); reflexivity.
  - now rewrite get_memory_summary_world, app_nil_r.
Qed.

(** X13. The clock is read once by [add_session_message], once for each fact
    it stores by [extract_memories], and never by [search_memories] and
    [get_memory_summary]. *)
Theorem calls_clock_readings `{R : Runtime} (c : call) (w : world) :
  clock (after_call c w)
  = clock w
    + match c with
      | AddSessionMessage _ _ _ _ => 1
      | ExtractMemories user_id _ =>
          length (facts_of (after_call c w) user_id)
          - length (facts_of w user_id)
      | SearchMemories _ _ => 0
      | GetMemorySummary _ => 0
      end.
Proof.
  destruct c as [u s r c | u s | u q | u]; cbn [after_call].
  - rewrite add_session_message_run. cbn [snd clock]. lia.
  - destruct (extract_memories_facts u s w) as (added & _ & _ & Hc & Hf & _).
    rewrite Hc, Hf, length_app. lia.
  - rewrite search_memories_clock. lia.
  - rewrite get_memory_summary_world. lia.
Qed.

Lemma join_snoc (sep : string) (parts : list string) (last : string) :
  Text.join sep (parts ++ [last])
  = match parts with
    | [] => EmptyString
    | _ => Text.join sep parts +:+ sep
    end +:+ last.
Proof.
  unfold Text.join. induction parts as [|a parts IH]; [reflexivity |].
  destruct parts as [|b parts].
  - cbn [app String.concat]. now rewrite TextFacts.append_assoc.
  - change (String.concat sep ((a :: b :: parts) ++ [last]))
      with (a +:+ sep +:+ String.concat sep ((b :: parts) ++ [last])).
    rewrite IH.
    change (String.concat sep (a :: b :: parts))
      with (a +:+ sep +:+ String.concat sep (b :: parts)).
    now rewrite !TextFacts.append_assoc.
Qed.

Lemma conversation_snoc (msgs : list message) (msg : message) :
  conversation (msgs ++ [msg])
  = match msgs with
    | [] => EmptyString
    | _ => conversation msgs +:+ Text.nl
    end +:+ msg_role msg +:+ ": " +:+ msg_content msg.
Proof.
  unfold conversation. rewrite map_app. cbn [map]. rewrite join_snoc.
  now destruct msgs.
Qed.

(** X14. After [add_session_message] for a user and a session,
    [extract_memories] for the same user and session always calls the
    generation model, once, and the transcript in its prompt is the
    session's earlier transcript followed by the line [role: content] of the
    new turn. *)
Theorem add_then_extract_prompt `{R : Runtime}
    (user_id session_id role content : string) (w : world) :
  let added := snd (add_session_message user_id session_id role content w) in
  let earlier := session_messages session_id (turns_of w user_id) in
  prompts (snd (extract_memories user_id session_id added))
  = prompts w
    ++ [extraction_prompt
          (match earlier with
           | [] => EmptyString
           | _ => conversation earlier +:+ Text.nl
           end +:+ role +:+ ": " +:+ content)].
Proof.
  intros added earlier.
  set (msg := Message session_id role content (now_isoformat (clock w))).
  assert (Hmsgs : session_messages session_id (turns_of added user_id)
                  = earlier ++ [msg]).
  { unfold added. rewrite turns_of_after_add.
    destruct (decide (user_id = user_id)); [| congruence].
    rewrite session_messages_app. unfold session_messages at 2.
    now rewrite filter_cons_True. }
  assert (Hprompts : prompts added = prompts w).
  { unfold added. now rewrite add_session_message_run. }
  assert (Hconv : conversation (earlier ++ [msg])
                  = match earlier with
                    | [] => EmptyString
                    | _ => conversation earlier +:+ Text.nl
                    end +:+ role +:+ ": " +:+ content)
    by apply conversation_snoc.
  rewrite <- Hconv, <- Hmsgs, <- Hprompts.
  rewrite extract_memories_run. unfold extract_prompt_of.
  destruct (session_messages session_id (turns_of added user_id))
    as [|m msgs] eqn:E.
  { destruct earlier; discriminate. }
  destruct (parsed_response (length (prompts added))
              (extraction_prompt (conversation (m :: msgs))))
    as [parsed|e] eqn:Hp.
  - rewrite (extract_body_closed _ _ _ _ _ Hp).
    destruct (py_iter parsed) as [items|e]; [| reflexivity].
    cbv zeta. destruct (forallb is_dict items); reflexivity.
  - now rewrite (extract_body_stops _ _ _ _ _ Hp).
Qed.

(** X15. The transcript sent by [extract_memories] for a user and a session
    holds the turns of that user and that session only: adding a turn for
    another user or in another session leaves the extraction prompt as it
    was. *)
Theorem extract_prompt_other_session `{R : Runtime}
    (user_id session_id other_user other_session role content : string)
    (w : world) :
  other_user <> user_id \/ other_session <> session_id ->
  extract_prompt_of
    (snd (add_session_message other_user other_session role content w))
    user_id session_id
  = extract_prompt_of w user_id session_id.
Proof.
  intros H. unfold extract_prompt_of. rewrite turns_of_after_add.
  destruct (decide (user_id = other_user)) as [->|Hne]; [| reflexivity].
  destruct H as [H | H]; [congruence |].
  rewrite session_messages_app. unfold session_messages at 2.
  rewrite filter_cons_False by (simpl; congruence).
  now rewrite filter_nil, app_nil_r.
Qed.

Lemma extract_prompt_other_session_witness :
  let R := rt "" in
  ("u1" <> "u1" \/ "s2" <> "s1") /\
  extract_prompt_of
    (snd (add_session_message "u1" "s2" "user" "I also prefer mornings"
            one_turn))
    "u1" "s1"
  = extract_prompt_of one_turn "u1" "s1".
Proof.
  intros R.
  assert (H : "u1" <> "u1" \/ "s2" <> "s1") by (right; discriminate).
  split; [exact H |].
  exact (extract_prompt_other_session "u1" "s1" "u1" "s2" "user"
           "I also prefer mornings" one_turn H).
Defined.

(* ===================================================================== *)
(** ** The context queries of the load hook *)
(* ===================================================================== *)

Module HookFacts.
Import Hook.

Lemma split_from_blank (s : string) :
  Text.all_space s = true -> split_from EmptyString s = [].
Proof.
  induction s as [|c s IH]; simpl; [reflexivity |].
  intros H. apply andb_prop in H as [Hc Hs]. rewrite Hc. auto.
Qed.

Lemma append_not_empty (a : string) (c : ascii) :
  a +:+ String c EmptyString <> EmptyString.
Proof. destruct a; discriminate. Qed.

Lemma split_from_word (s word : string) :
  word <> EmptyString -> split_from word s <> [].
Proof.
  revert word. induction s as [|c s IH]; intros word Hword; simpl.
  - now destruct word.
  - destruct (Text.is_space c).
    + now destruct word.
    + apply IH, append_not_empty.
Qed.

Lemma split_from_not_blank (s : string) :
  Text.all_space s = false -> split_from EmptyString s <> [].
Proof.
  induction s as [|c s IH]; simpl; [discriminate |].
  destruct (Text.is_space c); simpl; [exact IH |].
  intros _. apply split_from_word. discriminate.
Qed.

Section Contexts.

Variable float_nonzero : string -> bool.

Lemma file_contexts_length (doing about : string) (file_path : json)
    (more : string -> list string) (contexts : list string) :
  (forall p, length (more p) <= 1) ->
  file_contexts float_nonzero doing about file_path more = Ret contexts ->
  length contexts <= 3.
Proof.
  intros Hmore. unfold file_contexts.
  destruct file_path as [| b | n | f | p | l | d];
    try (destruct (truthy float_nonzero _); intros [=<-]; simpl; lia).
  destruct (truthy float_nonzero (JStr p)); intros [=<-]; simpl; [| lia].
  specialize (Hmore p). lia.
Qed.

Lemma language_contexts_length (p : string) : length (language_contexts p) <= 1.
Proof.
  unfold language_contexts.
  repeat match goal with |- context [if ?b then _ else _] => destruct b end;
    simpl; lia.
Qed.

Lemma tool_contexts_length (tool_name tool_input : json)
    (contexts : list string) :
  tool_contexts float_nonzero tool_name tool_input = Ret contexts ->
  length contexts <= 3.
Proof.
  unfold tool_contexts.
  destruct (named tool_name "Edit").
  { destruct (get_or_empty tool_input "file_path"); [| discriminate].
    apply file_contexts_length, language_contexts_length. }
  destruct (named tool_name "Write").
  { destruct (get_or_empty tool_input "file_path"); [| discriminate].
    apply file_contexts_length. intros _. simpl. lia. }
  destruct (named tool_name "Bash").
  { destruct (get_or_empty tool_input "command") as [command|]; [| discriminate].
    unfold command_contexts.
    destruct command as [| b | n | f | c | l | d];
      try (destruct (truthy float_nonzero _); intros [=<-]; simpl; lia).
    destruct (truthy float_nonzero (JStr c)); [| intros [=<-]; simpl; lia].
    destruct (split c); intros [=<-]. simpl. lia. }
  destruct (named tool_name "Read").
  { destruct (get_or_empty tool_input "file_path"); [| discriminate].
    apply file_contexts_length. intros _. simpl. lia. }
  intros [=<-]. simpl. lia.
Qed.

End Contexts.

End HookFacts.

(** X16. For the tool [Bash], a command that is not empty but holds white
    space only makes [get_context_from_tool] raise [IndexError]: the list of
    its words has no first element. *)
Theorem get_context_blank_command_raises (float_nonzero : string -> bool)
    (cwd command : string) (tool_input : list (string * json)) :
  dict_get "command" tool_input = Some (JStr command) ->
  command <> EmptyString ->
  Text.all_space command = true ->
  Hook.get_context_from_tool float_nonzero cwd (JStr "Bash") (JObj tool_input)
  = Raise Hook.IndexError.
Proof.
  intros Hget Hne Hblank.
  unfold Hook.get_context_from_tool, Hook.tool_contexts.
  cbn [Hook.named String.eqb Ascii.eqb Bool.eqb Hook.get_or_empty].
  rewrite Hget. unfold Hook.command_contexts, Hook.split.
  rewrite (HookFacts.split_from_blank _ Hblank).
  destruct command; [congruence | reflexivity].
Qed.

Lemma get_context_blank_command_raises_witness :
  dict_get "command" [("command", JStr "   ")] = Some (JStr "   ") /\
  "   "%string <> EmptyString /\
  Text.all_space "   " = true /\
  Hook.get_context_from_tool Hook.mantissa_nonzero "/home/me/project"
    (JStr "Bash") (JObj [("command", JStr "   ")])
  = Raise Hook.IndexError.
Proof.
  assert (H1 : dict_get "command" [("command", JStr "   ")]
               = Some (JStr "   ")) by reflexivity.
  assert (H2 : "   "%string <> EmptyString) by discriminate.
  assert (H3 : Text.all_space "   " = true) by reflexivity.
  split; [exact H1 |]. split; [exact H2 |]. split; [exact H3 |].
  exact (get_context_blank_command_raises Hook.mantissa_nonzero
           "/home/me/project" "   " _ H1 H2 H3).
Defined.

(** X17. Whenever [get_context_from_tool] returns, its list ends with the
    context of the project, named after the last component of the working
    directory, and with [recent work]; at most three contexts precede them,
    so the list has two to five entries. *)
Theorem get_context_ends_with_general (float_nonzero : string -> bool)
    (cwd : string) (tool_name tool_input : json) (contexts : list string) :
  Hook.get_context_from_tool float_nonzero cwd tool_name tool_input
  = Ret contexts ->
  exists specific,
    contexts
    = specific ++ ["project " +:+ Hook.basename cwd; "recent work"] /\
    length specific <= 3 /\
    2 <= length contexts <= 5.
Proof.
  unfold Hook.get_context_from_tool.
  destruct (Hook.tool_contexts float_nonzero tool_name tool_input)
    as [specific|e] eqn:E; [| discriminate].
  intros [=<-]. exists specific.
  pose proof (HookFacts.tool_contexts_length _ _ _ _ E) as Hlen.
  rewrite length_app. simpl. repeat split; lia.
Qed.

Lemma get_context_ends_with_general_witness :
  let contexts := ["editing store.py"; "file /src/store.py";
                   "python development"; "project project"; "recent work"] in
  Hook.get_context_from_tool Hook.mantissa_nonzero "/home/me/project"
    (JStr "Edit") (JObj [("file_path", JStr "/src/store.py")])
  = Ret contexts /\
  exists specific,
    contexts
    = specific ++ ["project " +:+ Hook.basename "/home/me/project";
                   "recent work"] /\
    length specific <= 3 /\
    2 <= length contexts <= 5.
Proof.
  intros contexts.
  assert (H : Hook.get_context_from_tool Hook.mantissa_nonzero
                "/home/me/project" (JStr "Edit")
                (JObj [("file_path", JStr "/src/store.py")])
              = Ret contexts) by reflexivity.
  split; [exact H |].
  exact (get_context_ends_with_general _ _ _ _ _ H).
Defined.

(** X18. For a tool name other than [Edit], [Write], [Bash] and [Read],
    [get_context_from_tool] does not look at the tool input, whatever it is,
    and returns exactly the two general contexts. *)
Theorem get_context_other_tool (float_nonzero : string -> bool)
    (cwd : string) (tool_name tool_input : json) :
  tool_name <> JStr "Edit" -> tool_name <> JStr "Write" ->
  tool_name <> JStr "Bash" -> tool_name <> JStr "Read" ->
  Hook.get_context_from_tool float_nonzero cwd tool_name tool_input
  = Ret ["project " +:+ Hook.basename cwd; "recent work"].
Proof.
  intros HE HW HB HR.
  assert (Hnamed : forall name, tool_name <> JStr name ->
                     Hook.named tool_name name = false).
  { intros name Hne. destruct tool_name as [| | | | s | |]; try reflexivity.
    simpl. apply String.eqb_neq. congruence. }
  unfold Hook.get_context_from_tool, Hook.tool_contexts.
  now rewrite (Hnamed _ HE), (Hnamed _ HW), (Hnamed _ HB), (Hnamed _ HR).
Qed.

Lemma get_context_other_tool_witness :
  JStr "Grep" <> JStr "Edit" /\ JStr "Grep" <> JStr "Write" /\
  JStr "Grep" <> JStr "Bash" /\ JStr "Grep" <> JStr "Read" /\
  Hook.get_context_from_tool Hook.mantissa_nonzero "/home/me/project"
    (JStr "Grep") JNull
  = Ret ["project " +:+ Hook.basename "/home/me/project"; "recent work"].
Proof.
  assert (H1 : JStr "Grep" <> JStr "Edit") by discriminate.
  assert (H2 : JStr "Grep" <> JStr "Write") by discriminate.
  assert (H3 : JStr "Grep" <> JStr "Bash") by discriminate.
  assert (H4 : JStr "Grep" <> JStr "Read") by discriminate.
  repeat (split; [assumption |]).
  exact (get_context_other_tool Hook.mantissa_nonzero "/home/me/project"
           (JStr "Grep") JNull H1 H2 H3 H4).
Defined.

(** X19. [get_context_from_tool] returns, for any tool name, when the tool
    input is a dict whose [file_path] and [command], where present, are
    strs, and the command is empty or has a character that is not white
    space. *)
Theorem get_context_returns (float_nonzero : string -> bool) (cwd : string)
    (tool_name : json) (tool_input : list (string * json)) :
  (forall v, dict_get "file_path" tool_input = Some v -> exists p, v = JStr p) ->
  (forall v, dict_get "command" tool_input = Some v ->
     exists c, v = JStr c /\ (c = EmptyString \/ Text.all_space c = false)) ->
  exists contexts,
    Hook.get_context_from_tool float_nonzero cwd tool_name (JObj tool_input)
    = Ret contexts.
Proof.
  intros Hpath Hcommand.
  assert (Hfile : forall doing about more,
            exists contexts,
              match Hook.get_or_empty (JObj tool_input) "file_path" with
              | Ret file_path =>
                  Hook.file_contexts float_nonzero doing about file_path more
              | Raise e => Raise e
              end = Ret contexts).
  { intros doing about more. cbn [Hook.get_or_empty].
    destruct (dict_get "file_path" tool_input) as [v|] eqn:E.
    - destruct (Hpath v eq_refl) as [p ->]. unfold Hook.file_contexts.
      destruct (Hook.truthy float_nonzero (JStr p)); now eexists.
    - now eexists. }
  unfold Hook.get_context_from_tool, Hook.tool_contexts.
  destruct (Hook.named tool_name "Edit");
    [destruct (Hfile "editing " "file " Hook.language_contexts) as [l ->];
     now eexists |].
  destruct (Hook.named tool_name "Write");
    [destruct (Hfile "creating " "new file " (fun _ : string => @nil string))
       as [l ->]; now eexists |].
  destruct (Hook.named tool_name "Bash").
  { cbn [Hook.get_or_empty].
    destruct (dict_get "command" tool_input) as [v|] eqn:E; [| now eexists].
    destruct (Hcommand v eq_refl) as (c & -> & [-> | Hc]); [now eexists |].
    unfold Hook.command_contexts, Hook.split.
    pose proof (HookFacts.split_from_not_blank _ Hc) as Hsplit.
    destruct (Hook.truthy float_nonzero (JStr c)); [| now eexists].
    destruct (Hook.split_from EmptyString c); [congruence | now eexists]. }
  destruct (Hook.named tool_name "Read");
    [destruct (Hfile "reading " "file content " (fun _ : string => @nil string))
       as [l ->]; now eexists |].
  now eexists.
Qed.

Lemma get_context_returns_witness :
  let tool_input := [("command", JStr "  ls -la  ")] in
  (forall v, dict_get "file_path" tool_input = Some v -> exists p, v = JStr p) /\
  (forall v, dict_get "command" tool_input = Some v ->
     exists c, v = JStr c /\ (c = EmptyString \/ Text.all_space c = false)) /\
  Hook.get_context_from_tool Hook.mantissa_nonzero "/home/me/project"
    (JStr "Bash") (JObj tool_input)
  = Ret ["running ls"; "command   ls -la  "; "project project"; "recent work"] /\
  exists contexts,
    Hook.get_context_from_tool Hook.mantissa_nonzero "/home/me/project"
      (JStr "Bash") (JObj tool_input)
    = Ret contexts.
Proof.
  intros tool_input.
  assert (H1 : forall v, dict_get "file_path" tool_input = Some v ->
                 exists p, v = JStr p) by (intros v [=]).
  assert (H2 : forall v, dict_get "command" tool_input = Some v ->
                 exists c, v = JStr c /\
                   (c = EmptyString \/ Text.all_space c = false)).
  { intros v [=<-]. eexists. split; [reflexivity |]. now right. }
  split; [exact H1 |]. split; [exact H2 |]. split; [reflexivity |].
  exact (get_context_returns Hook.mantissa_nonzero "/home/me/project"
           (JStr "Bash") tool_input H1 H2).
Defined.
